(** * GetDummies: a fit/transform one-hot encoder over pandas.get_dummies

    Shallow embedding of the [GetDummies] class of
    [fast-one-hot-encoder.ipynb] and of the pandas operations it calls,
    followed by the properties of its fit/transform contract. *)

From Stdlib Require Import List String Ascii ZArith Bool Arith Permutation Lia.
From Stdlib Require Import DecimalString.
Import ListNotations.
Local Open Scope string_scope.
Local Open Scope list_scope.

(** ** Python exceptions and fallible results *)

Inductive exn : Type :=
| TypeError
| KeyError
| ValueError.

Inductive result (A : Type) : Type :=
| Ok (a : A)
| Err (e : exn).

Arguments Ok {A} a.
Arguments Err {A} e.

Definition bind {A B : Type} (r : result A) (k : A -> result B) : result B :=
  match r with
  | Ok a => k a
  | Err e => Err e
  end.

Notation "x <- r ;; k" := (bind r (fun x => k))
  (at level 61, r at next level, right associativity).

Definition succeeds {A : Type} (r : result A) : Prop :=
  exists a, r = Ok a.

Definition raises {A : Type} (r : result A) : Prop :=
  exists e, r = Err e.

(** ** Tables *)

Definition label : Type := string.

(** A cell holds a number or a text value. *)
Inductive cell : Type :=
| Int (z : Z)
| Str (s : string).

(** Column types.  A [category] column carries its declared categories. *)
Inductive dtype : Type :=
| object
| category (cats : list cell)
| int64
| float64
| uint8.

(** Type tags accepted by [select_dtypes]: [object], ['category'], ... *)
Inductive selector : Type :=
| sel_object
| sel_category
| sel_int64
| sel_float64
| sel_uint8.

Record Series : Type := mkSeries {
  dtype_of : dtype;
  values : list cell
}.

(** A DataFrame: the length of its row index and its columns in order.
    Column labels may repeat, as pandas allows. *)
Record DataFrame : Type := mkDataFrame {
  nrows : nat;
  items : list (label * Series)
}.

Definition cell_eqb (a b : cell) : bool :=
  match a, b with
  | Int x, Int y => Z.eqb x y
  | Str x, Str y => String.eqb x y
  | _, _ => false
  end.

(** Order used to sort the observed values of a column: numbers by value,
    text by code point, numbers before text. *)
Definition cell_leb (a b : cell) : bool :=
  match a, b with
  | Int x, Int y => Z.leb x y
  | Int _, Str _ => true
  | Str _, Int _ => false
  | Str x, Str y => String.leb x y
  end.

(** Python's [str] of a cell. *)
Definition str (c : cell) : string :=
  match c with
  | Int z => NilZero.string_of_int (Z.to_int z)
  | Str s => s
  end.

Definition tag_of (d : dtype) : selector :=
  match d with
  | object => sel_object
  | category _ => sel_category
  | int64 => sel_int64
  | float64 => sel_float64
  | uint8 => sel_uint8
  end.

Definition selector_eqb (a b : selector) : bool :=
  match a, b with
  | sel_object, sel_object
  | sel_category, sel_category
  | sel_int64, sel_int64
  | sel_float64, sel_float64
  | sel_uint8, sel_uint8 => true
  | _, _ => false
  end.

Definition mem_label (c : label) (l : list label) : bool :=
  existsb (String.eqb c) l.

Definition mem_selector (s : selector) (l : list selector) : bool :=
  existsb (selector_eqb s) l.

(** ** The pandas operations the encoder calls

    pandas is an external library: the notebook holds none of its code.
    Each operation below is modelled after what pandas does for the calls
    the encoder makes, which agrees with the contract the specification
    gives for the expansion primitive and settles what that contract leaves
    open: labels that repeat, labels that are absent, tables without
    columns. *)

Module pd.

(** [df.columns] *)
Definition columns (df : DataFrame) : list label :=
  map fst (items df).

(** The columns of [df] carrying label [k], in table order. *)
Definition lookup_all (k : label) (its : list (label * Series))
  : list (label * Series) :=
  filter (fun p => String.eqb k (fst p)) its.

(** Modelled from the spec: [DataFrame.select_dtypes] of pandas, the
    dtype selection of section 4.1 ("select all columns whose declared type
    matches dtype_selectors", in column order).  As in pandas, both lists
    empty is a ValueError, as is an overlap; a column is kept when its tag
    is included (or nothing is) and not excluded. *)
Definition select_dtypes (df : DataFrame) (include exclude : list selector)
  : result DataFrame :=
  match include, exclude with
  | [], [] => Err ValueError
  | _, _ =>
    if existsb (fun s => mem_selector s exclude) include then Err ValueError
    else
      Ok (mkDataFrame (nrows df)
            (filter (fun p =>
                       let t := tag_of (dtype_of (snd p)) in
                       (match include with
                        | [] => true
                        | _ => mem_selector t include
                        end) && negb (mem_selector t exclude))
                    (items df)))
  end.

(** Modelled from the spec: [DataFrame.__getitem__] of pandas with a list
    of labels, the column selection of section 3.  As in pandas, every key
    selects all the columns carrying it, in table order, and a key carried
    by no column is a KeyError. *)
Fixpoint getitem_items (its : list (label * Series)) (keys : list label)
  : result (list (label * Series)) :=
  match keys with
  | [] => Ok []
  | k :: ks =>
    match lookup_all k its with
    | [] => Err KeyError
    | hit =>
      rest <- getitem_items its ks ;;
      Ok (hit ++ rest)
    end
  end.

(** [df[keys]], over the same rows. *)
Definition getitem (df : DataFrame) (keys : list label) : result DataFrame :=
  sel <- getitem_items (items df) keys ;;
  Ok (mkDataFrame (nrows df) sel).

(** A column holding the integer [v] in each of [n] rows. *)
Definition constant (n : nat) (v : Z) : Series :=
  mkSeries int64 (repeat (Int v) n).

(** Modelled from the spec: [DataFrame.__setitem__] of pandas with a
    scalar, [df[c] = v], the "new column of that name filled entirely with
    zero" of section 4.1.  As in pandas, every column labelled [c] is
    overwritten; when there is none, a new column is appended. *)
Definition setitem (df : DataFrame) (c : label) (v : Z) : DataFrame :=
  if mem_label c (columns df) then
    mkDataFrame (nrows df)
      (map (fun p => if String.eqb c (fst p)
                     then (fst p, constant (nrows df) v) else p)
           (items df))
  else
    mkDataFrame (nrows df) (items df ++ [(c, constant (nrows df) v)]).

(** Modelled from the spec: [DataFrame.drop(labels, axis=1)] of pandas,
    used by the expansion to keep the columns that are not encoded; an
    absent label is a KeyError. *)
Definition drop (df : DataFrame) (labels : list label) : result DataFrame :=
  if forallb (fun c => mem_label c (columns df)) labels then
    Ok (mkDataFrame (nrows df)
          (filter (fun p => negb (mem_label (fst p) labels)) (items df)))
  else Err KeyError.

Fixpoint insert_sorted (c : cell) (l : list cell) : list cell :=
  match l with
  | [] => [c]
  | x :: xs =>
    if cell_eqb c x then l
    else if cell_leb c x then c :: l
    else x :: insert_sorted c xs
  end.

(** The distinct observed values, sorted. *)
Definition sorted_unique (vs : list cell) : list cell :=
  fold_right insert_sorted [] vs.

(** The levels of a column: the declared categories of a categorical
    column, otherwise the sorted distinct observed values. *)
Definition levels (s : Series) : list cell :=
  match dtype_of s with
  | category cats => cats
  | _ => sorted_unique (values s)
  end.

Definition indicator (lvl : cell) (vs : list cell) : Series :=
  mkSeries uint8 (map (fun v => if cell_eqb v lvl then Int 1 else Int 0) vs).

(** One indicator column per level, named [<prefix>_<level>]. *)
Definition get_dummies_1d (s : Series) (prefix : label)
  : list (label * Series) :=
  map (fun lvl => ((prefix ++ "_" ++ str lvl)%string, indicator lvl (values s)))
      (levels s).

(** Modelled from the spec: [pandas.concat(frames, axis=1)], the column
    concatenation of section 3, over frames sharing the row index [n]; as
    in pandas, an empty list of frames is a ValueError. *)
Definition concat (n : nat) (frames : list (list (label * Series)))
  : result DataFrame :=
  match frames with
  | [] => Err ValueError
  | _ => Ok (mkDataFrame n (List.concat frames))
  end.

(** Modelled from the spec: [pandas.get_dummies(data, columns=columns)],
    the expansion primitive of section 6: each named column is replaced by
    one indicator column per value, named [<original_name>_<value>], rows
    and other columns unchanged.  As in pandas,
    the columns to encode are [data[columns]] (the object and category
    columns when [columns] is None); the other columns come first,
    unchanged, followed by the indicator columns of each encoded column. *)
Definition get_dummies (data : DataFrame) (cols : option (list label))
  : result DataFrame :=
  data_to_encode <-
    match cols with
    | None => select_dtypes data [sel_object; sel_category] []
    | Some cs => getitem data cs
    end ;;
  with_dummies <-
    (if Nat.eqb (List.length (items data_to_encode)) (List.length (items data))
     then Ok []
     else match cols with
          | Some cs => kept <- drop data cs ;; Ok [items kept]
          | None =>
            kept <- select_dtypes data [] [sel_object; sel_category] ;;
            Ok [items kept]
          end) ;;
  concat (nrows data)
    (with_dummies ++
     map (fun p => get_dummies_1d (snd p) (fst p)) (items data_to_encode)).

End pd.

(** ** Python sets of labels *)

(** A set built from a sequence is kept by its distinct elements; the order
    in which a [for] loop visits them is not fixed by the language, so it is
    a parameter: any rearrangement of the elements. *)
Record SetOrder : Type := mkSetOrder {
  iter_order : list label -> list label;
  iter_order_perm : forall s, Permutation (iter_order s) s
}.

(** [set(a) - set(b)], listed without repetition. *)
Definition set_difference (a b : list label) : list label :=
  nodup string_dec (filter (fun c => negb (mem_label c b)) a).

(** Iterating (or converting) an attribute that is still [None] is a
    TypeError. *)
Definition iterable {A : Type} (o : option A) : result A :=
  match o with
  | Some a => Ok a
  | None => Err TypeError
  end.

(** ** The encoder *)

Record GetDummies : Type := mkGetDummies {
  input_columns : option (list label);
  final_columns : option (list label);
  dtypes : list selector
}.

(** [GetDummies.__init__] *)
Definition __init__ (dtypes : option (list selector)) : GetDummies :=
  mkGetDummies None None
    (match dtypes with
     | None => [sel_object; sel_category]
     | Some d => d
     end).

(** [GetDummies.fit]: the encoder after the call, and whether the call
    returned or raised.  An exception leaves the assignments made before
    it in place. *)
Definition fit (self : GetDummies) (X : DataFrame)
  : GetDummies * result unit :=
  match pd.select_dtypes X (dtypes self) [] with
  | Err e => (self, Err e)
  | Ok sel =>
    let self1 :=
      mkGetDummies (Some (pd.columns sel)) (final_columns self) (dtypes self) in
    match pd.get_dummies X (input_columns self1) with
    | Err e => (self1, Err e)
    | Ok X' =>
      (mkGetDummies (input_columns self1) (Some (pd.columns X')) (dtypes self1),
       Ok tt)
    end
  end.

(** The [for c in missing: X[c] = 0] loop. *)
Definition zero_fill (X : DataFrame) (missing : list label) : DataFrame :=
  fold_left (fun X c => pd.setitem X c 0) missing X.

(** [GetDummies.transform] *)
Definition transform (o : SetOrder) (self : GetDummies) (X : DataFrame)
  : result DataFrame :=
  X <- pd.get_dummies X (input_columns self) ;;
  let X_columns := pd.columns X in
  final <- iterable (final_columns self) ;;
  let missing := set_difference final X_columns in
  let X := zero_fill X (iter_order o missing) in
  pd.getitem X final.

(** [GetDummies.get_feature_names] *)
Definition get_feature_names (self : GetDummies) : result (list label) :=
  iterable (final_columns self).

(** Modelled from the spec: [fit_transform], inherited from sklearn's
    TransformerMixin, which the notebook does not contain: "fit then
    transform on the same input" (section 6), [self.fit(X).transform(X)]. *)
Definition fit_transform (o : SetOrder) (self : GetDummies) (X : DataFrame)
  : GetDummies * result DataFrame :=
  let (self', r) := fit self X in
  (self', _ <- r ;; transform o self' X).

(** ** The notebook's tables *)

Definition ints (zs : list Z) : Series := mkSeries int64 (map Int zs).
Definition strs (ss : list string) : Series := mkSeries object (map Str ss).

Definition df1 : DataFrame :=
  mkDataFrame 2
    [("foo", ints [1; 2]%Z); ("bar", strs ["a"; "c"]);
     ("baz", strs ["b"; "d"]); ("grok", strs ["hi"; "there"])].

Definition df2 : DataFrame :=
  mkDataFrame 3
    [("foo", ints [3; 4; 4]%Z); ("bar", strs ["a"; "c"; "c"]);
     ("baz", strs ["e"; "b"; "b"]); ("grok", strs ["whoa"; "whoa"; "there"]);
     ("new", ints [0; 0; 0]%Z)].

Definition insertion_order : SetOrder :=
  mkSetOrder (fun s => s) (fun s => Permutation_refl s).

Definition reverse_order : SetOrder :=
  mkSetOrder (@rev label) (fun s => Permutation_sym (Permutation_rev s)).

(** The rows of a table, for reading results. *)
Definition cells_of (df : DataFrame) : list (label * list cell) :=
  map (fun p => (fst p, values (snd p))) (items df).

(** ** The result of [transform], column by column *)

(** The columns [transform] returns for the output name [k]: the columns of
    the expanded table carrying [k], or one column of zeros when there is
    none. *)
Definition reconciled (X1 : DataFrame) (k : label) : list (label * Series) :=
  match pd.lookup_all k (items X1) with
  | [] => [(k, pd.constant (nrows X1) 0)]
  | hit => hit
  end.

(** ** Further tables *)

(** A later table that has lost the text column [bar] of [df1]. *)
Definition df_without_bar : DataFrame :=
  mkDataFrame 1
    [("foo", ints [3]%Z); ("baz", strs ["b"]); ("grok", strs ["hi"])].

Definition fitted_df1 : GetDummies := fst (fit (__init__ None) df1).

Definition table_of (r : result DataFrame) : DataFrame :=
  match r with
  | Ok d => d
  | Err _ => mkDataFrame 0 []
  end.

Definition expanded_df1 : DataFrame :=
  Eval vm_compute in table_of (pd.get_dummies df1 (input_columns fitted_df1)).

Definition expanded_df2 : DataFrame :=
  Eval vm_compute in table_of (pd.get_dummies df2 (input_columns fitted_df1)).

Definition features_df1 : list label :=
  ["foo"; "bar_a"; "bar_c"; "baz_b"; "baz_d"; "grok_hi"; "grok_there"].

(** A table of numbers only. *)
Definition df_numeric : DataFrame :=
  mkDataFrame 2 [("foo", ints [1; 2]%Z); ("new", ints [0; 0]%Z)].

(** A later table that has lost the numeric column [foo] of [df1]. *)
Definition df_without_foo : DataFrame :=
  mkDataFrame 2
    [("bar", strs ["a"; "c"]); ("baz", strs ["b"; "b"]);
     ("grok", strs ["hi"; "there"])].

Definition expanded_without_foo : DataFrame :=
  Eval vm_compute in
    table_of (pd.get_dummies df_without_foo (input_columns fitted_df1)).

(** A table whose numeric column is named like an indicator of [bar]. *)
Definition df_named_like_indicator : DataFrame :=
  mkDataFrame 2 [("bar_a", ints [5; 6]%Z); ("bar", strs ["c"; "c"])].

Definition df_value_a : DataFrame :=
  mkDataFrame 1 [("bar_a", ints [7]%Z); ("bar", strs ["a"])].

Definition df_only_bar : DataFrame :=
  mkDataFrame 1 [("bar", strs ["a"])].

Definition df_repeated_label : DataFrame :=
  mkDataFrame 1 [("a", ints [1]%Z); ("a", ints [2]%Z)].

(** ** Further notions used to describe the encoder's calls *)

(** Every column of the table has one cell per row. *)
Definition rectangular (df : DataFrame) : bool :=
  forallb (fun p => Nat.eqb (List.length (values (snd p))) (nrows df))
          (items df).

(** Whether a column's dtype is among the encoder's selectors. *)
Definition selected (self : GetDummies) (p : label * Series) : bool :=
  mem_selector (tag_of (dtype_of (snd p))) (dtypes self).

(** The indicator columns [pd.get_dummies] makes of one column. *)
Definition dummies_of (p : label * Series) : list (label * Series) :=
  pd.get_dummies_1d (snd p) (fst p).

(** Whether a call of [fit] on [T] returns. *)
Definition fit_ok (self : GetDummies) (T : DataFrame) : bool :=
  match snd (fit self T) with
  | Ok _ => true
  | Err _ => false
  end.

(** The encoder after [fit] has been called on each table in turn, calls
    that raise included (the exception caught by the caller). *)
Definition fit_each (self : GetDummies) (Ts : list DataFrame) : GetDummies :=
  fold_left (fun s T => fst (fit s T)) Ts self.

(** A table of no columns, and a later table with one more column. *)
Definition df_no_columns : DataFrame := mkDataFrame 2 [].

Definition with_column (X : DataFrame) (before after : list (label * Series))
           (c : label) (s : Series) : DataFrame :=
  mkDataFrame (nrows X) (before ++ (c, s) :: after).

(** The names of the indicator columns made of one column. *)
Definition indicator_names (p : label * Series) : list label :=
  map (fun lvl => (fst p ++ "_" ++ str lvl)%string) (pd.levels (snd p)).

(** The columns [df2] shares with [df1]: [df2] is this table with the
    column [new] added at the end. *)
Definition df2_shared : DataFrame :=
  mkDataFrame 3
    [("foo", ints [3; 4; 4]%Z); ("bar", strs ["a"; "c"; "c"]);
     ("baz", strs ["e"; "b"; "b"]); ("grok", strs ["whoa"; "whoa"; "there"])].

(** ** The feature ranking cell of the notebook

    The cell reads [importances] off the fitted tree and [feature_names]
    off the encoder, and prints the ranking in a loop.  The tree and
    numpy's [argsort] are external: [importances] is any sequence of values
    and [sorted] stands for [np.argsort(importances)], a rearrangement of
    the positions of [importances]. *)

(** [a[:stop:-1]]: the elements after position [stop], last first. *)
Definition slice_down_to {A : Type} (stop : nat) (a : list A) : list A :=
  rev (skipn (S stop) a).

(** [a[:stop]] *)
Definition slice_up_to {A : Type} (stop : nat) (a : list A) : list A :=
  firstn stop a.

(** How the loop ends: it runs to its end, or an index is out of range. *)
Inductive ending : Type :=
| finished
| IndexError.

(** [for f in fs: print(... % (f + 1, feature_names[indices[f]],
    importances[indices[f]]))]: the lines printed, as rank, name and
    importance, and how the loop ended. *)
Fixpoint ranking_loop {V : Type} (fs : list nat) (feature_names : list label)
         (importances : list V) (indices : list nat)
  : list (nat * label * V) * ending :=
  match fs with
  | [] => ([], finished)
  | f :: fs' =>
    match nth_error indices f with
    | None => ([], IndexError)
    | Some i =>
      match nth_error feature_names i, nth_error importances i with
      | Some name, Some imp =>
        let (lines, e) := ranking_loop fs' feature_names importances indices in
        ((f + 1, name, imp) :: lines, e)
      | _, _ => ([], IndexError)
      end
    end
  end.

(** The cell from [indices = np.argsort(importances)[:10:-1]] on, after
    the heading line. *)
Definition feature_ranking {V : Type} (sorted : list nat)
           (feature_names : list label) (importances : list V)
  : list (nat * label * V) * ending :=
  let indices := slice_down_to 10 sorted in
  ranking_loop (seq 0 (List.length (slice_up_to 10 feature_names)))
               feature_names importances indices.

(** ** Tactics *)

(** Case analysis on membership in a list written out in full. *)
Ltac each_member H tac :=
  simpl in H;
  repeat (destruct H as [<- | H]; [tac |]);
  contradiction.

(** A label that differs from every label of a list written out in full. *)
Ltac not_a_member :=
  let H := fresh "H" in
  simpl; intros H;
  repeat (destruct H as [H | H]; [discriminate H |]);
  contradiction.

(** ** Membership, sets and label lookup *)

Lemma mem_label_In (c : label) (l : list label) :
  mem_label c l = true <-> In c l.
Proof.
  unfold mem_label. rewrite existsb_exists. split.
  - intros (x & Hin & Heq). apply String.eqb_eq in Heq. now subst.
  - intros Hin. exists c. split; [assumption | apply String.eqb_refl].
Qed.

Lemma mem_label_notin (c : label) (l : list label) :
  mem_label c l = false <-> ~ In c l.
Proof.
  rewrite <- mem_label_In. destruct (mem_label c l); split; congruence.
Qed.

Lemma set_difference_In (c : label) (a b : list label) :
  In c (set_difference a b) <-> In c a /\ ~ In c b.
Proof.
  unfold set_difference. rewrite nodup_In, filter_In, negb_true_iff.
  now rewrite mem_label_notin.
Qed.

Lemma set_difference_NoDup (a b : list label) :
  NoDup (set_difference a b).
Proof. apply NoDup_nodup. Qed.

Lemma flat_map_ext_In {A B : Type} (f g : A -> list B) (l : list A) :
  (forall a, In a l -> f a = g a) -> flat_map f l = flat_map g l.
Proof.
  induction l as [| a l IH]; intros Hfg; simpl; [reflexivity |].
  rewrite (Hfg a (or_introl eq_refl)), IH; [reflexivity |].
  intros b Hb. apply Hfg. now right.
Qed.

Lemma lookup_all_app (k : label) (a b : list (label * Series)) :
  pd.lookup_all k (a ++ b) = pd.lookup_all k a ++ pd.lookup_all k b.
Proof. apply filter_app. Qed.

Lemma lookup_all_In (k : label) (its : list (label * Series)) (p : label * Series) :
  In p (pd.lookup_all k its) <-> In p its /\ fst p = k.
Proof.
  unfold pd.lookup_all. rewrite filter_In, String.eqb_eq.
  split; intros [Hin Hk]; split; auto.
Qed.

Lemma lookup_all_nil (k : label) (its : list (label * Series)) :
  pd.lookup_all k its = [] <-> ~ In k (map fst its).
Proof.
  split.
  - intros Hnil Hin. apply in_map_iff in Hin. destruct Hin as (p & Hp & Hin).
    assert (In p (pd.lookup_all k its)) as Hx by (apply lookup_all_In; auto).
    rewrite Hnil in Hx. contradiction.
  - intros Hnot. destruct (pd.lookup_all k its) as [| p rest] eqn:E; [reflexivity |].
    exfalso. apply Hnot.
    assert (In p (pd.lookup_all k its)) as Hx by (rewrite E; now left).
    apply lookup_all_In in Hx. destruct Hx as [Hin Hk].
    rewrite <- Hk. now apply in_map.
Qed.

Lemma lookup_all_fresh (k : label) (n : nat) (ms : list label) :
  NoDup ms ->
  pd.lookup_all k (map (fun c => (c, pd.constant n 0)) ms)
  = if mem_label k ms then [(k, pd.constant n 0)] else [].
Proof.
  induction 1 as [| c ms Hc Hnd IH]; [reflexivity |].
  unfold pd.lookup_all, mem_label in *. simpl.
  destruct (String.eqb k c) eqn:E; simpl; [| exact IH].
  apply String.eqb_eq in E. subst c. rewrite IH.
  apply mem_label_notin in Hc. unfold mem_label in Hc. now rewrite Hc.
Qed.

(** In a table whose labels are pairwise distinct a label selects the one
    column carrying it. *)
Lemma lookup_all_NoDup (its : list (label * Series)) (p : label * Series) :
  NoDup (map fst its) -> In p its -> pd.lookup_all (fst p) its = [p].
Proof.
  induction its as [| q its IH]; intros Hnd Hin; [contradiction |].
  simpl in Hnd. inversion Hnd as [| ? ? Hq Hnd']; subst.
  unfold pd.lookup_all in *. simpl. destruct Hin as [-> | Hin].
  - rewrite String.eqb_refl.
    pose proof (proj2 (lookup_all_nil (fst p) its) Hq) as E0.
    unfold pd.lookup_all in E0. now rewrite E0.
  - destruct (String.eqb _ _) eqn:E.
    + apply String.eqb_eq in E. exfalso. apply Hq.
      apply in_map_iff. exists p. split; [exact E | exact Hin].
    + now apply IH.
Qed.

(** ** [df[keys]] in closed form *)

Lemma getitem_items_present (its : list (label * Series)) (keys : list label) :
  (forall k, In k keys -> In k (map fst its)) ->
  pd.getitem_items its keys = Ok (flat_map (fun k => pd.lookup_all k its) keys).
Proof.
  induction keys as [| k ks IH]; intros Hall; [reflexivity |].
  simpl. destruct (pd.lookup_all k its) as [| p hit] eqn:E.
  - exfalso. apply lookup_all_nil in E. apply E, Hall. now left.
  - rewrite IH; [reflexivity |]. intros k' Hk'. apply Hall. now right.
Qed.

Lemma getitem_items_absent (its : list (label * Series)) (keys : list label) (k : label) :
  In k keys -> ~ In k (map fst its) ->
  pd.getitem_items its keys = Err KeyError.
Proof.
  induction keys as [| k' ks IH]; intros Hin Hnot; [contradiction |].
  simpl. destruct (pd.lookup_all k' its) as [| p hit] eqn:E; [reflexivity |].
  destruct Hin as [-> | Hin].
  - apply lookup_all_nil in Hnot. congruence.
  - now rewrite IH.
Qed.

(** ** The zero-fill loop *)

Lemma setitem_fresh (X : DataFrame) (c : label) (v : Z) :
  ~ In c (pd.columns X) ->
  pd.setitem X c v
  = mkDataFrame (nrows X) (items X ++ [(c, pd.constant (nrows X) v)]).
Proof.
  intros Hc. unfold pd.setitem. apply mem_label_notin in Hc. now rewrite Hc.
Qed.

Lemma zero_fill_fresh (ms : list label) :
  forall X : DataFrame,
  NoDup ms ->
  (forall c, In c ms -> ~ In c (pd.columns X)) ->
  zero_fill X ms
  = mkDataFrame (nrows X)
      (items X ++ map (fun c => (c, pd.constant (nrows X) 0)) ms).
Proof.
  induction ms as [| c ms IH]; intros X Hnd Hfresh.
  - simpl. rewrite app_nil_r. now destruct X.
  - inversion Hnd as [| ? ? Hc Hnd']; subst.
    unfold zero_fill. simpl. fold (zero_fill (pd.setitem X c 0) ms).
    rewrite setitem_fresh by (apply Hfresh; now left).
    rewrite IH; [simpl; now rewrite <- app_assoc | assumption |].
    intros c' Hc' Hin. unfold pd.columns in Hin. simpl in Hin.
    rewrite map_app in Hin. apply in_app_or in Hin. destruct Hin as [Hin | Hin].
    + apply (Hfresh c'); [now right | exact Hin].
    + simpl in Hin. destruct Hin as [<- | []]. contradiction.
Qed.

(** ** [transform] in closed form *)

Lemma transform_closed_form (o : SetOrder) (self : GetDummies)
      (X X1 : DataFrame) (final : list label) :
  pd.get_dummies X (input_columns self) = Ok X1 ->
  final_columns self = Some final ->
  transform o self X
  = Ok (mkDataFrame (nrows X1) (flat_map (reconciled X1) final)).
Proof.
  intros Hexp Hfinal. unfold transform. rewrite Hexp. simpl.
  rewrite Hfinal. simpl.
  set (missing := set_difference final (pd.columns X1)).
  assert (Hperm : Permutation (iter_order o missing) missing)
    by apply iter_order_perm.
  assert (Hnd : NoDup (iter_order o missing)).
  { apply (Permutation_NoDup (Permutation_sym Hperm)).
    apply set_difference_NoDup. }
  assert (Hin : forall c, In c (iter_order o missing)
                          <-> In c final /\ ~ In c (pd.columns X1)).
  { intros c. rewrite <- set_difference_In. split; intros Hc.
    - exact (Permutation_in c Hperm Hc).
    - exact (Permutation_in c (Permutation_sym Hperm) Hc). }
  rewrite zero_fill_fresh; [| exact Hnd | intros c Hc; now apply Hin].
  unfold pd.getitem. simpl.
  rewrite getitem_items_present.
  - simpl. do 2 f_equal. apply flat_map_ext_In. intros k Hk.
    rewrite lookup_all_app, lookup_all_fresh by exact Hnd.
    unfold reconciled.
    destruct (pd.lookup_all k (items X1)) as [| p hit] eqn:E.
    + apply lookup_all_nil in E.
      assert (In k (iter_order o missing)) as Hm by (apply Hin; auto).
      apply mem_label_In in Hm. now rewrite Hm.
    + assert (~ In k (iter_order o missing)) as Hm.
      { intros Hm. apply Hin in Hm. destruct Hm as [_ Hm].
        apply (proj2 (lookup_all_nil k (items X1))) in Hm. congruence. }
      apply mem_label_notin in Hm. rewrite Hm. apply app_nil_r.
  - intros k Hk. rewrite map_app, in_app_iff.
    destruct (in_dec string_dec k (pd.columns X1)) as [Hyes | Hno];
      [now left | right].
    rewrite map_map. simpl. rewrite map_id. apply Hin. auto.
Qed.

(** ** The expansion primitive and [fit] *)

Lemma get_dummies_nrows (X X1 : DataFrame) (cols : option (list label)) :
  pd.get_dummies X cols = Ok X1 -> nrows X1 = nrows X.
Proof.
  unfold pd.get_dummies, pd.concat.
  destruct (match cols with
            | Some cs => pd.getitem X cs
            | None => pd.select_dtypes X [sel_object; sel_category] []
            end) as [enc | e]; simpl; [| discriminate].
  match goal with
  | |- bind ?w _ = _ -> _ => destruct w as [frames | e]; simpl; [| discriminate]
  end.
  destruct (frames ++ _); intros H; inversion H; reflexivity.
Qed.

(** A recorded column that the table lacks makes the expansion raise. *)
Lemma get_dummies_absent (X : DataFrame) (cs : list label) (c : label) :
  In c cs -> ~ In c (pd.columns X) ->
  pd.get_dummies X (Some cs) = Err KeyError.
Proof.
  intros Hin Hnot. unfold pd.get_dummies, pd.getitem.
  now rewrite (getitem_items_absent (items X) cs c Hin Hnot).
Qed.

(** The expansion returns on every table that has a column and carries all
    the columns to encode. *)
Lemma get_dummies_present (X : DataFrame) (cs : list label) :
  items X <> [] ->
  (forall c, In c cs -> In c (pd.columns X)) ->
  succeeds (pd.get_dummies X (Some cs)).
Proof.
  intros Hne Hall. unfold pd.get_dummies, pd.getitem.
  rewrite (getitem_items_present (items X) cs Hall). simpl.
  destruct (Nat.eqb _ _) eqn:E; simpl.
  - apply Nat.eqb_eq in E.
    destruct (flat_map (fun k => pd.lookup_all k (items X)) cs) as [| p l].
    + destruct (items X); [congruence | discriminate].
    + simpl. eexists. reflexivity.
  - unfold pd.drop.
    assert (forallb (fun c => mem_label c (pd.columns X)) cs = true) as ->.
    { apply forallb_forall. intros c Hc. apply mem_label_In. auto. }
    simpl. eexists. reflexivity.
Qed.

Lemma filter_all {A : Type} (f : A -> bool) (l : list A) :
  (forall a, In a l -> f a = true) -> filter f l = l.
Proof.
  induction l as [| a l IH]; intros Hf; simpl; [reflexivity |].
  rewrite (Hf a (or_introl eq_refl)), IH; [reflexivity |].
  intros b Hb. apply Hf. now right.
Qed.

Lemma filter_none {A : Type} (f : A -> bool) (l : list A) :
  (forall a, In a l -> f a = false) -> filter f l = [].
Proof.
  induction l as [| a l IH]; intros Hf; simpl; [reflexivity |].
  rewrite (Hf a (or_introl eq_refl)). apply IH.
  intros b Hb. apply Hf. now right.
Qed.

(** With nothing to encode the expansion hands back the table it was
    given, provided the table has a column. *)
Lemma get_dummies_nothing (T : DataFrame) :
  items T <> [] -> pd.get_dummies T (Some []) = Ok T.
Proof.
  intros Hne. destruct T as [n its]. simpl in Hne.
  unfold pd.get_dummies, pd.getitem, pd.drop. simpl.
  destruct its as [| p its]; [congruence |]. simpl.
  rewrite filter_all by reflexivity.
  unfold pd.concat. simpl. now rewrite app_nil_r.
Qed.

(** On a table without columns the expansion has nothing to concatenate. *)
Lemma get_dummies_no_columns (n : nat) (cols : option (list label)) :
  raises (pd.get_dummies (mkDataFrame n []) cols).
Proof.
  destruct cols as [[| c cs] |]; eexists; reflexivity.
Qed.

Lemma select_dtypes_include (X : DataFrame) (include : list selector) :
  include <> [] ->
  pd.select_dtypes X include []
  = Ok (mkDataFrame (nrows X)
          (filter (fun p => mem_selector (tag_of (dtype_of (snd p))) include)
                  (items X))).
Proof.
  intros Hne. unfold pd.select_dtypes.
  destruct include as [| s l]; [congruence |].
  assert (existsb (fun s0 => mem_selector s0 []) (s :: l) = false) as ->.
  { generalize (s :: l). intros l0. induction l0; simpl; auto. }
  do 2 f_equal. apply filter_ext. intros p. simpl. apply andb_true_r.
Qed.

Lemma select_dtypes_empty (X : DataFrame) :
  pd.select_dtypes X [] [] = Err ValueError.
Proof. reflexivity. Qed.

(** What a call of [fit] that returned has done. *)
Lemma fit_returned (self self' : GetDummies) (T : DataFrame) :
  fit self T = (self', Ok tt) ->
  exists sel X',
    pd.select_dtypes T (dtypes self) [] = Ok sel /\
    pd.get_dummies T (Some (pd.columns sel)) = Ok X' /\
    self' = mkGetDummies (Some (pd.columns sel)) (Some (pd.columns X'))
                         (dtypes self).
Proof.
  unfold fit. destruct (pd.select_dtypes T (dtypes self) []) as [sel | e];
    [| intros H; inversion H]. simpl.
  destruct (pd.get_dummies T (Some (pd.columns sel))) as [X' | e] eqn:E;
    intros H; inversion H.
  exists sel, X'. repeat split; auto.
Qed.

(** [fit] returns on every table with a column, for every non-empty set of
    selectors. *)
Lemma fit_returns (self : GetDummies) (T : DataFrame) :
  dtypes self <> [] -> items T <> [] ->
  exists self', fit self T = (self', Ok tt).
Proof.
  intros Hd Hne. unfold fit. rewrite (select_dtypes_include T (dtypes self) Hd). simpl.
  match goal with
  | |- context [pd.get_dummies T (Some ?cs)] =>
    destruct (get_dummies_present T cs Hne) as [X' HX']
  end.
  - intros c Hc. unfold pd.columns in *. simpl in Hc.
    apply in_map_iff in Hc. destruct Hc as (p & <- & Hp).
    apply filter_In in Hp. apply in_map. tauto.
  - rewrite HX'. eexists. reflexivity.
Qed.

(** With no selector configured, [select_dtypes] raises and [fit] leaves
    the encoder as it was. *)
Lemma fit_without_selectors (self : GetDummies) (T : DataFrame) :
  dtypes self = [] -> fit self T = (self, Err ValueError).
Proof. intros Hd. unfold fit. rewrite Hd. reflexivity. Qed.

(** On a table without columns the expansion inside [fit] raises:
    [input_columns] has been assigned, [final_columns] has not. *)
Lemma fit_without_columns (self : GetDummies) (n : nat) :
  dtypes self <> [] ->
  fit self (mkDataFrame n [])
  = (mkGetDummies (Some []) (final_columns self) (dtypes self),
     Err ValueError).
Proof.
  intros Hd. unfold fit.
  rewrite (select_dtypes_include (mkDataFrame n []) (dtypes self) Hd).
  reflexivity.
Qed.

Lemma fit_keeps_dtypes (self : GetDummies) (T : DataFrame) :
  dtypes (fst (fit self T)) = dtypes self.
Proof.
  unfold fit. destruct (pd.select_dtypes T (dtypes self) []); [| reflexivity].
  simpl. destruct (pd.get_dummies T _); reflexivity.
Qed.

(** ** The columns [transform] returns *)

Lemma reconciled_label (X1 : DataFrame) (k : label) (p : label * Series) :
  In p (reconciled X1 k) -> fst p = k.
Proof.
  unfold reconciled.
  destruct (pd.lookup_all k (items X1)) as [| q hit] eqn:E.
  - intros [<- | []]. reflexivity.
  - rewrite <- E. intros Hp. now apply lookup_all_In in Hp.
Qed.

Lemma reconciled_nonempty (X1 : DataFrame) (k : label) :
  exists s, In (k, s) (reconciled X1 k).
Proof.
  unfold reconciled.
  destruct (pd.lookup_all k (items X1)) as [| q hit] eqn:E.
  - eexists. now left.
  - assert (In q (pd.lookup_all k (items X1))) as Hq by (rewrite E; now left).
    apply lookup_all_In in Hq. destruct q as [l s]. simpl in Hq.
    destruct Hq as [_ ->]. exists s. now left.
Qed.

Lemma reconciled_missing (X1 : DataFrame) (k : label) :
  ~ In k (pd.columns X1) ->
  reconciled X1 k = [(k, pd.constant (nrows X1) 0)].
Proof.
  intros Hk. unfold reconciled.
  now rewrite (proj2 (lookup_all_nil k (items X1)) Hk).
Qed.

Lemma lookup_all_length (k : label) (its : list (label * Series)) :
  List.length (pd.lookup_all k its) = count_occ string_dec (map fst its) k.
Proof.
  induction its as [| p its IH]; [reflexivity |].
  unfold pd.lookup_all in *. simpl.
  destruct (string_dec (fst p) k) as [Heq | Hne].
  - subst k. rewrite String.eqb_refl. simpl. now rewrite IH.
  - destruct (String.eqb _ _) eqn:E; [| exact IH].
    apply String.eqb_eq in E. exfalso. apply Hne. symmetry. exact E.
Qed.

Lemma reconciled_single (X1 : DataFrame) (k : label) :
  count_occ string_dec (pd.columns X1) k <= 1 ->
  map fst (reconciled X1 k) = [k].
Proof.
  intros Hcount. unfold pd.columns in Hcount.
  rewrite <- lookup_all_length in Hcount.
  pose proof (reconciled_label X1 k) as Hlab. unfold reconciled in *.
  destruct (pd.lookup_all k (items X1)) as [| q [| q' hit]];
    [reflexivity | | simpl in Hcount; lia].
  simpl. f_equal. apply Hlab. now left.
Qed.

Lemma flat_map_reconciled_columns (X1 : DataFrame) (final : list label) :
  (forall c, In c final -> count_occ string_dec (pd.columns X1) c <= 1) ->
  map fst (flat_map (reconciled X1) final) = final.
Proof.
  induction final as [| k final IH]; intros Hcount; [reflexivity |].
  simpl. rewrite map_app, reconciled_single, IH; [reflexivity | |].
  - intros c Hc. apply Hcount. now right.
  - apply Hcount. now left.
Qed.

(** Every column of the output carries a name of [final_columns]. *)
Lemma transform_columns_incl (o : SetOrder) (self : GetDummies)
      (X Y : DataFrame) (final : list label) (c : label) :
  final_columns self = Some final ->
  transform o self X = Ok Y ->
  In c (pd.columns Y) -> In c final.
Proof.
  intros Hfinal Hrun Hc.
  destruct (pd.get_dummies X (input_columns self)) as [X1 | e] eqn:Hexp.
  - rewrite (transform_closed_form o self X X1 final Hexp Hfinal) in Hrun.
    inversion Hrun; subst Y. unfold pd.columns in Hc. simpl in Hc.
    apply in_map_iff in Hc. destruct Hc as (p & <- & Hp).
    apply in_flat_map in Hp. destruct Hp as (k & Hk & Hp).
    now rewrite (reconciled_label X1 k p Hp).
  - unfold transform in Hrun. rewrite Hexp in Hrun. discriminate.
Qed.

(** C1, as amended: when the transform-time expansion [X1] returns and no
    name of [final_columns] (the output_columns recorded by fit) is carried
    by more than one column of [X1], transform returns a table whose column
    sequence is exactly [final_columns], in that order, over the rows of
    the input; and a column of [X1] whose name is not in [final_columns] is
    not in the output. *)
Theorem transform_columns_eq_final_columns
        (o : SetOrder) (self : GetDummies) (X X1 : DataFrame)
        (final : list label) :
  pd.get_dummies X (input_columns self) = Ok X1 ->
  final_columns self = Some final ->
  (forall c, In c final -> count_occ string_dec (pd.columns X1) c <= 1) ->
  exists Y,
    transform o self X = Ok Y /\
    pd.columns Y = final /\
    nrows Y = nrows X /\
    (forall c, In c (pd.columns X1) -> ~ In c final -> ~ In c (pd.columns Y)).
Proof.
  intros Hexp Hfinal Hcount.
  pose proof (transform_closed_form o self X X1 final Hexp Hfinal) as Hrun.
  eexists. split; [exact Hrun |]. split; [| split].
  - unfold pd.columns at 1. simpl. now apply flat_map_reconciled_columns.
  - simpl. exact (get_dummies_nrows X X1 (input_columns self) Hexp).
  - intros c _ Hnot Hc. apply Hnot.
    exact (transform_columns_incl o self X _ final c Hfinal Hrun Hc).
Qed.

Lemma flat_map_length_ge {A B : Type} (f : A -> list B) (l : list A) :
  (forall a, In a l -> 1 <= List.length (f a)) ->
  List.length l <= List.length (flat_map f l).
Proof.
  induction l as [| x l IH]; intros Hf; simpl; [lia |].
  rewrite length_app.
  pose proof (Hf x (or_introl eq_refl)).
  assert (List.length l <= List.length (flat_map f l))
    by (apply IH; intros a Ha; apply Hf; now right).
  lia.
Qed.

Lemma flat_map_length_tight {A B : Type} (f : A -> list B) (l : list A) :
  (forall a, In a l -> 1 <= List.length (f a)) ->
  List.length (flat_map f l) = List.length l ->
  forall a, In a l -> List.length (f a) = 1.
Proof.
  induction l as [| x l IH]; intros Hf Hlen a Ha; [contradiction |].
  simpl in Hlen. rewrite length_app in Hlen.
  pose proof (Hf x (or_introl eq_refl)) as Hx.
  assert (Hl : forall b, In b l -> 1 <= List.length (f b))
    by (intros b Hb; apply Hf; now right).
  pose proof (flat_map_length_ge f l Hl) as Hge.
  destruct Ha as [<- | Ha]; [lia |].
  apply IH; [exact Hl | lia | exact Ha].
Qed.

Lemma reconciled_length (X1 : DataFrame) (k : label) :
  1 <= List.length (reconciled X1 k) /\
  count_occ string_dec (pd.columns X1) k <= List.length (reconciled X1 k).
Proof.
  unfold pd.columns. rewrite <- lookup_all_length. unfold reconciled.
  destruct (pd.lookup_all k (items X1)); simpl; lia.
Qed.

(** The condition of the theorem below is also necessary: when the output
    has exactly the columns [final_columns], no name of them is carried by
    two columns of the expansion. *)
Lemma transform_columns_only_if
      (o : SetOrder) (self : GetDummies) (X X1 Y : DataFrame)
      (final : list label) :
  pd.get_dummies X (input_columns self) = Ok X1 ->
  final_columns self = Some final ->
  transform o self X = Ok Y ->
  pd.columns Y = final ->
  forall c, In c final -> count_occ string_dec (pd.columns X1) c <= 1.
Proof.
  intros Hexp Hfinal Hrun Hcols c Hc.
  rewrite (transform_closed_form o self X X1 final Hexp Hfinal) in Hrun.
  inversion Hrun; subst Y. unfold pd.columns at 1 in Hcols. simpl in Hcols.
  apply (f_equal (@List.length label)) in Hcols. rewrite length_map in Hcols.
  pose proof (flat_map_length_tight (reconciled X1) final
                (fun k _ => proj1 (reconciled_length X1 k)) Hcols c Hc) as H1.
  pose proof (proj2 (reconciled_length X1 c)). lia.
Qed.

(** A name of [final_columns] that the expansion did not produce comes
    out as columns of zeros. *)
Lemma transform_missing_zero
      (o : SetOrder) (self : GetDummies) (X X1 : DataFrame)
      (final : list label) (c : label) :
  pd.get_dummies X (input_columns self) = Ok X1 ->
  final_columns self = Some final ->
  In c final ->
  ~ In c (pd.columns X1) ->
  exists Y,
    transform o self X = Ok Y /\
    In c (pd.columns Y) /\
    (forall s, In (c, s) (items Y) ->
               values s = repeat (Int 0) (nrows X) /\
               List.length (values s) = nrows X).
Proof.
  intros Hexp Hfinal Hc Hmiss.
  pose proof (transform_closed_form o self X X1 final Hexp Hfinal) as Hrun.
  pose proof (get_dummies_nrows X X1 (input_columns self) Hexp) as Hrows.
  eexists. split; [exact Hrun |]. split.
  - unfold pd.columns at 1. simpl. apply in_map_iff.
    exists (c, pd.constant (nrows X1) 0). split; [reflexivity |].
    apply in_flat_map. exists c. split; [assumption |].
    rewrite (reconciled_missing X1 c Hmiss). now left.
  - simpl. intros s Hs. apply in_flat_map in Hs.
    destruct Hs as (k & Hk & Hs).
    pose proof (reconciled_label X1 k _ Hs) as Hlab. simpl in Hlab. subst k.
    rewrite (reconciled_missing X1 c Hmiss) in Hs.
    destruct Hs as [Hs | []]. inversion Hs; subst s. simpl.
    rewrite Hrows. split; [reflexivity | apply repeat_length].
Qed.

(** C2: for an encoder whose [final_columns] is set and a table whose
    expansion [X1] returns, every name of [final_columns] that is not a
    column of [X1] is a column of the output, and every output column of
    that name holds zero in each row, with as many rows as the input. *)
Theorem transform_zero_fills_missing
        (o : SetOrder) (self : GetDummies) (X X1 : DataFrame)
        (final : list label) (c : label) :
  pd.get_dummies X (input_columns self) = Ok X1 ->
  final_columns self = Some final ->
  In c final ->
  ~ In c (pd.columns X1) ->
  exists Y,
    transform o self X = Ok Y /\
    In c (pd.columns Y) /\
    (forall s, In (c, s) (items Y) ->
               values s = repeat (Int 0) (nrows X) /\
               List.length (values s) = nrows X).
Proof. exact (transform_missing_zero o self X X1 final c). Qed.

(** [transform] returns on every table that has a column and carries all
    the recorded [input_columns], once [final_columns] is set. *)
Lemma transform_returns
      (o : SetOrder) (self : GetDummies) (X : DataFrame)
      (cs final : list label) :
  input_columns self = Some cs ->
  final_columns self = Some final ->
  items X <> [] ->
  (forall c, In c cs -> In c (pd.columns X)) ->
  succeeds (transform o self X).
Proof.
  intros Hcs Hfinal Hne Hall.
  destruct (get_dummies_present X cs Hne Hall) as [X1 HX1].
  rewrite <- Hcs in HX1.
  eexists. exact (transform_closed_form o self X X1 final HX1 Hfinal).
Qed.

(** ** A recorded categorical column missing at transform time *)

(** C3: [transform] passes the recorded [input_columns] to the expansion
    as they are.  When one of them is not a column of the table, the
    expansion raises and [transform] raises KeyError with it: no table is
    returned. *)
Theorem transform_absent_input_column
        (o : SetOrder) (self : GetDummies) (X : DataFrame)
        (cs : list label) (c : label) :
  input_columns self = Some cs ->
  In c cs ->
  ~ In c (pd.columns X) ->
  transform o self X = Err KeyError.
Proof.
  intros Hcs Hin Hnot. unfold transform.
  now rewrite Hcs, (get_dummies_absent X cs c Hin Hnot).
Qed.

Lemma transform_absent_input_column_df1 :
  In "bar" ["bar"; "baz"; "grok"] /\
  ~ In "bar" (pd.columns df_without_bar) /\
  transform insertion_order (fst (fit (__init__ None) df1)) df_without_bar
  = Err KeyError.
Proof.
  assert (Hin : In "bar" ["bar"; "baz"; "grok"]) by (now left).
  assert (Hnot : ~ In "bar" (pd.columns df_without_bar)).
  { simpl. intros [H | [H | [H | []]]]; discriminate H. }
  split; [exact Hin |]. split; [exact Hnot |].
  exact (transform_absent_input_column insertion_order
           (fst (fit (__init__ None) df1)) df_without_bar
           ["bar"; "baz"; "grok"] "bar" eq_refl Hin Hnot).
Defined.

(** ** Calls before [fit] *)

(** With [columns=None] the expansion returns on every table that has a
    column. *)
Lemma get_dummies_default_returns (X : DataFrame) :
  items X <> [] -> succeeds (pd.get_dummies X None).
Proof.
  intros Hne. unfold pd.get_dummies.
  destruct (pd.select_dtypes X [sel_object; sel_category] [])
    as [enc | e] eqn:Henc; [| discriminate Henc].
  cbn [bind].
  destruct (Nat.eqb (List.length (items enc)) (List.length (items X))) eqn:E.
  - cbn [bind app]. apply Nat.eqb_eq in E.
    destruct (items enc) as [| p its].
    + destruct (items X); [congruence | discriminate E].
    + eexists. reflexivity.
  - destruct (pd.select_dtypes X [] [sel_object; sel_category])
      as [kept | e] eqn:Hkept; [| discriminate Hkept].
    eexists. reflexivity.
Qed.

(** C4, as amended: on an encoder as [__init__] leaves it neither call
    returns a value.  [get_feature_names] raises the TypeError of
    converting the unset [final_columns].  [transform] raises the TypeError
    of iterating the unset [final_columns] on every table that has a
    column; on a table without columns the expansion, which runs first,
    raises ValueError, and the unset state is never reached. *)
Theorem unfitted_calls_errors
        (d : option (list selector)) (o : SetOrder) (X : DataFrame) :
  transform o (__init__ d) X
  = Err (match items X with
         | [] => ValueError
         | _ :: _ => TypeError
         end) /\
  get_feature_names (__init__ d) = Err TypeError.
Proof.
  split; [| reflexivity].
  destruct X as [n its]. destruct its as [| p its]; [reflexivity |].
  destruct (get_dummies_default_returns (mkDataFrame n (p :: its)))
    as [X1 HX1]; [discriminate |].
  unfold transform. cbn [__init__ input_columns final_columns].
  rewrite HX1. reflexivity.
Qed.

(** On a table without columns [transform] on an encoder never fitted
    raises ValueError, not the TypeError of the unset state. *)
Lemma unfitted_transform_no_columns :
  ~ (forall (d : option (list selector)) (o : SetOrder) (X : DataFrame),
        transform o (__init__ d) X = Err TypeError /\
        get_feature_names (__init__ d) = Err TypeError).
Proof.
  intros H.
  destruct (H None insertion_order df_no_columns) as [Habs _].
  vm_compute in Habs. discriminate Habs.
Qed.

(** That ValueError does not tell the two states apart: an encoder fitted
    on [df_numeric] raises it on the same table. *)
Example transform_no_columns_fitted_or_not :
  transform insertion_order (__init__ None) df_no_columns = Err ValueError /\
  fit (__init__ None) df_numeric
  = (fst (fit (__init__ None) df_numeric), Ok tt) /\
  transform insertion_order (fst (fit (__init__ None) df_numeric))
            df_no_columns
  = Err ValueError.
Proof. repeat split; reflexivity. Qed.

(** ** Independence from the iteration order of the set [missing] *)

(** C9: [fit] and [get_feature_names] are functions of the encoder state
    and the table; [transform] and [fit_transform], which loop over the set
    [missing], give the same result (table or error) whatever order the
    loop visits the set in. *)
Theorem transform_order_independent
        (o1 o2 : SetOrder) (self : GetDummies) (X : DataFrame) :
  transform o1 self X = transform o2 self X /\
  fit_transform o1 self X = fit_transform o2 self X.
Proof.
  assert (Htr : forall s, transform o1 s X = transform o2 s X).
  { intros s.
    destruct (pd.get_dummies X (input_columns s)) as [X1 | e] eqn:Hexp.
    - destruct (final_columns s) as [final | ] eqn:Hfinal.
      + now rewrite (transform_closed_form o1 s X X1 final Hexp Hfinal),
                    (transform_closed_form o2 s X X1 final Hexp Hfinal).
      + unfold transform. rewrite Hexp, Hfinal. reflexivity.
    - unfold transform. rewrite Hexp. reflexivity. }
  split; [apply Htr |].
  unfold fit_transform. destruct (fit self X) as [self' r].
  now rewrite Htr.
Qed.

(** ** State after [fit] *)

(** C8: after a call of [fit] that returned, [get_feature_names] returns
    the column sequence of the table the expansion produced inside [fit]. *)
Theorem get_feature_names_after_fit
        (self self' : GetDummies) (T : DataFrame) :
  fit self T = (self', Ok tt) ->
  exists X',
    pd.get_dummies T (input_columns self') = Ok X' /\
    get_feature_names self' = Ok (pd.columns X').
Proof.
  intros Hfit. apply fit_returned in Hfit.
  destruct Hfit as (sel & X' & _ & Hexp & ->).
  exists X'. split; [exact Hexp | reflexivity].
Qed.

Lemma get_feature_names_after_fit_df1 :
  fit (__init__ None) df1 = (fst (fit (__init__ None) df1), Ok tt) /\
  exists X',
    pd.get_dummies df1 (input_columns (fst (fit (__init__ None) df1))) = Ok X' /\
    get_feature_names (fst (fit (__init__ None) df1)) = Ok (pd.columns X').
Proof.
  split; [reflexivity |].
  exact (get_feature_names_after_fit (__init__ None)
           (fst (fit (__init__ None) df1)) df1 eq_refl).
Defined.

(** C7: when a second [fit], on [T2], returns, the encoder is in the state
    a freshly constructed encoder with the same selectors reaches by
    fitting [T2] alone, whatever table [T1] was fitted before; and every
    column name in the output of a later [transform] is one of the second
    fit's [final_columns], so a name known only from the first fit is not
    among them. *)
Theorem refit_replaces_state
        (self self2 : GetDummies) (T1 T2 : DataFrame) :
  fit (fst (fit self T1)) T2 = (self2, Ok tt) ->
  fit (__init__ (Some (dtypes self))) T2 = (self2, Ok tt) /\
  (forall o X Y c,
      transform o self2 X = Ok Y ->
      In c (pd.columns Y) ->
      exists final2, final_columns self2 = Some final2 /\ In c final2).
Proof.
  intros Hfit. pose proof (fit_returned _ _ _ Hfit) as Hret.
  destruct Hret as (sel & X' & Hsel & Hexp & ->).
  rewrite fit_keeps_dtypes in *. split.
  - unfold fit. simpl. rewrite Hsel. simpl. rewrite Hexp. reflexivity.
  - intros o X Y c Hrun Hc. eexists. split; [reflexivity |].
    eapply transform_columns_incl; [| exact Hrun | exact Hc]. reflexivity.
Qed.

Lemma refit_replaces_state_df2_df1 :
  fit (fst (fit (__init__ None) df2)) df1
  = (fst (fit (__init__ None) df1), Ok tt) /\
  fit (__init__ (Some (dtypes (__init__ None)))) df1
  = (fst (fit (__init__ None) df1), Ok tt) /\
  (forall o X Y c,
      transform o (fst (fit (__init__ None) df1)) X = Ok Y ->
      In c (pd.columns Y) ->
      exists final2,
        final_columns (fst (fit (__init__ None) df1)) = Some final2 /\
        In c final2).
Proof.
  split; [reflexivity |].
  exact (refit_replaces_state (__init__ None)
           (fst (fit (__init__ None) df1)) df2 df1 eq_refl).
Defined.

(** ** Transforming the table that was fitted *)

Lemma reconciled_self (X1 : DataFrame) :
  NoDup (pd.columns X1) ->
  forall l, incl l (items X1) ->
  flat_map (reconciled X1) (map fst l) = l.
Proof.
  intros Hnd. induction l as [| p l IH]; intros Hincl; [reflexivity |].
  simpl. rewrite IH by (intros q Hq; apply Hincl; now right).
  unfold reconciled.
  rewrite (lookup_all_NoDup (items X1) p Hnd) by (apply Hincl; now left).
  reflexivity.
Qed.

(** On the table whose expansion [fit] recorded, [transform] returns that
    expansion when its column names are pairwise distinct. *)
Lemma transform_fitted_table
      (o : SetOrder) (self self' : GetDummies) (T X' : DataFrame) :
  fit self T = (self', Ok tt) ->
  pd.get_dummies T (input_columns self') = Ok X' ->
  NoDup (pd.columns X') ->
  transform o self' T = Ok X'.
Proof.
  intros Hfit Hexp Hnd. apply fit_returned in Hfit.
  destruct Hfit as (sel & X'' & _ & Hexp' & ->). simpl in Hexp.
  assert (X'' = X') by congruence. subst X''.
  rewrite (transform_closed_form o
             (mkGetDummies (Some (pd.columns sel)) (Some (pd.columns X'))
                           (dtypes self))
             T X' (pd.columns X') Hexp eq_refl).
  unfold pd.columns. rewrite (reconciled_self X' Hnd) by apply incl_refl.
  now destruct X'.
Qed.

(** C5, as amended: after a [fit] on [T] that returned, [transform] on the
    same [T] returns the table the expansion produced inside [fit],
    provided the column names of that table are pairwise distinct; and
    [fit_transform] is [fit] followed by [transform] on the same table. *)
Theorem transform_reproduces_fit_table
        (o : SetOrder) (self self' : GetDummies) (T X' : DataFrame) :
  fit self T = (self', Ok tt) ->
  pd.get_dummies T (input_columns self') = Ok X' ->
  NoDup (pd.columns X') ->
  transform o self' T = Ok X' /\
  fit_transform o self T = (self', transform o self' T).
Proof.
  intros Hfit Hexp Hnd. split.
  - eapply transform_fitted_table; eassumption.
  - unfold fit_transform. rewrite Hfit. reflexivity.
Qed.

(** C6, as amended: for a non-empty set of selectors and a table [T] with
    at least one column, pairwise distinct column names and no column
    matching a selector, [fit] returns with [input_columns] empty and
    [final_columns] the column sequence of [T], and [transform] then
    returns [T] itself. *)
Theorem no_categorical_columns_identity
        (o : SetOrder) (self : GetDummies) (T : DataFrame) :
  dtypes self <> [] ->
  items T <> [] ->
  NoDup (pd.columns T) ->
  (forall p, In p (items T) ->
             mem_selector (tag_of (dtype_of (snd p))) (dtypes self) = false) ->
  exists self',
    fit self T = (self', Ok tt) /\
    input_columns self' = Some [] /\
    final_columns self' = Some (pd.columns T) /\
    transform o self' T = Ok T.
Proof.
  intros Hd Hne Hnd Hnone.
  assert (Hfit : fit self T
                 = (mkGetDummies (Some []) (Some (pd.columns T)) (dtypes self),
                    Ok tt)).
  { unfold fit. rewrite (select_dtypes_include T (dtypes self) Hd).
    rewrite (filter_none _ _ Hnone). simpl.
    unfold pd.columns at 1 2. simpl.
    now rewrite (get_dummies_nothing T Hne). }
  eexists. split; [exact Hfit |]. split; [reflexivity |].
  split; [reflexivity |].
  eapply transform_fitted_table; [exact Hfit | | exact Hnd].
  simpl. exact (get_dummies_nothing T Hne).
Qed.

(** ** Passthrough columns *)

Lemma fst_NoDup_inj (its : list (label * Series)) (k : label) (a b : Series) :
  NoDup (map fst its) -> In (k, a) its -> In (k, b) its -> a = b.
Proof.
  induction its as [| p its IH]; intros Hnd Ha Hb; [contradiction |].
  simpl in Hnd. inversion Hnd as [| ? ? Hp Hnd']; subst.
  destruct Ha as [-> | Ha], Hb as [Hb | Hb].
  - congruence.
  - exfalso. apply Hp. simpl. apply in_map_iff. now exists (k, b).
  - subst p. exfalso. apply Hp. simpl. apply in_map_iff. now exists (k, a).
  - now apply IH.
Qed.

Lemma lookup_selected (its : list (label * Series)) :
  NoDup (map fst its) ->
  forall l, incl l its ->
  flat_map (fun k => pd.lookup_all k its) (map fst l) = l.
Proof.
  intros Hnd. induction l as [| p l IH]; intros Hincl; [reflexivity |].
  simpl. rewrite IH by (intros q Hq; apply Hincl; now right).
  rewrite (lookup_all_NoDup its p Hnd) by (apply Hincl; now left).
  reflexivity.
Qed.

Lemma filter_length_lt {A : Type} (f : A -> bool) (l : list A) (a : A) :
  In a l -> f a = false -> List.length (filter f l) < List.length l.
Proof.
  induction l as [| x l IH]; intros Hin Hf; [contradiction |].
  simpl. destruct Hin as [-> | Hin].
  - rewrite Hf. pose proof (filter_length_le f l). lia.
  - specialize (IH Hin Hf). destruct (f x); simpl; lia.
Qed.

(** In a table with pairwise distinct column names, a column that is not
    selected for encoding is a column of the expansion, unchanged. *)
Lemma get_dummies_keeps_passthrough
      (T X' : DataFrame) (f : label * Series -> bool) (c : label) (s : Series) :
  NoDup (pd.columns T) ->
  In (c, s) (items T) ->
  f (c, s) = false ->
  pd.get_dummies T (Some (map fst (filter f (items T)))) = Ok X' ->
  In (c, s) (items X').
Proof.
  intros Hnd Hin Hf. unfold pd.get_dummies, pd.getitem.
  assert (Hpresent : forall k, In k (map fst (filter f (items T))) ->
                               In k (pd.columns T)).
  { intros k Hk. apply in_map_iff in Hk. destruct Hk as (p & <- & Hp).
    apply filter_In in Hp. apply in_map. tauto. }
  rewrite (getitem_items_present (items T) _ Hpresent).
  rewrite (lookup_selected (items T) Hnd)
    by (intros p Hp; apply filter_In in Hp; tauto).
  simpl.
  pose proof (filter_length_lt f (items T) (c, s) Hin Hf) as Hlt.
  destruct (Nat.eqb _ _) eqn:E; [apply Nat.eqb_eq in E; lia |].
  simpl. unfold pd.drop.
  assert (forallb (fun k => mem_label k (pd.columns T))
                  (map fst (filter f (items T))) = true) as ->.
  { apply forallb_forall. intros k Hk. apply mem_label_In. auto. }
  simpl. unfold pd.concat. simpl. intros H. inversion H; subst X'. simpl.
  apply in_or_app. left. apply filter_In. split; [assumption |].
  simpl. apply negb_true_iff, mem_label_notin. intros Hc.
  apply in_map_iff in Hc. destruct Hc as ([c' s'] & Heq & Hp).
  simpl in Heq. subst c'. apply filter_In in Hp. destruct Hp as [Hp Hfp].
  assert (s' = s) by (eapply fst_NoDup_inj; eauto). subst s'. congruence.
Qed.

(** C10, as amended: let [fit] return on a table [T] with pairwise distinct
    column names, and let [c] name a column of [T] matching no selector (a
    passthrough column).  For a table [X] whose expansion [X1] returns
    without a column named [c] (the column is absent from [X] and no
    indicator of that name is produced), [transform] returns, [c] is a
    column of the output, and every output column named [c] holds zero in
    each row of [X]. *)
Theorem transform_zero_fills_absent_passthrough
        (o : SetOrder) (self self' : GetDummies) (T X X1 : DataFrame)
        (c : label) (s : Series) :
  fit self T = (self', Ok tt) ->
  NoDup (pd.columns T) ->
  In (c, s) (items T) ->
  mem_selector (tag_of (dtype_of s)) (dtypes self) = false ->
  pd.get_dummies X (input_columns self') = Ok X1 ->
  ~ In c (pd.columns X1) ->
  exists Y,
    transform o self' X = Ok Y /\
    In c (pd.columns Y) /\
    (forall s', In (c, s') (items Y) ->
                values s' = repeat (Int 0) (nrows X) /\
                List.length (values s') = nrows X).
Proof.
  intros Hfit Hnd Hin Hpass Hexp Hmiss.
  apply fit_returned in Hfit. destruct Hfit as (sel & X' & Hsel & Hexp' & ->).
  assert (Hd : dtypes self <> []).
  { intros Hd. rewrite Hd in Hsel. discriminate. }
  rewrite (select_dtypes_include T (dtypes self) Hd) in Hsel. inversion Hsel; subst sel.
  unfold pd.columns at 1 in Hexp'. simpl in Hexp'.
  pose proof (get_dummies_keeps_passthrough T X' _ c s Hnd Hin Hpass Hexp')
    as Hkept.
  eapply transform_missing_zero; [exact Hexp | reflexivity | | exact Hmiss].
  unfold pd.columns. apply in_map_iff. now exists (c, s).
Qed.

(** ** The notebook's run, and the theorems at concrete tables *)

(** Cell 10 of the notebook: [fit_transform(df1)]. *)
Example notebook_fit_transform_df1 :
  fit (__init__ None) df1
  = (mkGetDummies (Some ["bar"; "baz"; "grok"]) (Some features_df1)
                  [sel_object; sel_category], Ok tt) /\
  option_map cells_of
    (match snd (fit_transform insertion_order (__init__ None) df1) with
     | Ok d => Some d
     | Err _ => None
     end)
  = Some [("foo", [Int 1; Int 2]);
          ("bar_a", [Int 1; Int 0]); ("bar_c", [Int 0; Int 1]);
          ("baz_b", [Int 1; Int 0]); ("baz_d", [Int 0; Int 1]);
          ("grok_hi", [Int 1; Int 0]); ("grok_there", [Int 0; Int 1])].
Proof. split; reflexivity. Qed.

(** Cell 11 of the notebook: [transform(df2)] after the fit on [df1]. *)
Example notebook_transform_df2 :
  option_map cells_of
    (match transform reverse_order fitted_df1 df2 with
     | Ok d => Some d
     | Err _ => None
     end)
  = Some [("foo", [Int 3; Int 4; Int 4]);
          ("bar_a", [Int 1; Int 0; Int 0]); ("bar_c", [Int 0; Int 1; Int 1]);
          ("baz_b", [Int 0; Int 1; Int 1]); ("baz_d", [Int 0; Int 0; Int 0]);
          ("grok_hi", [Int 0; Int 0; Int 0]);
          ("grok_there", [Int 0; Int 0; Int 1])].
Proof. reflexivity. Qed.

Lemma NoDup_by_nodup (l : list label) :
  nodup string_dec l = l -> NoDup l.
Proof. intros <-. apply NoDup_nodup. Qed.

Lemma transform_columns_eq_final_columns_df2 :
  exists Y,
    transform reverse_order fitted_df1 df2 = Ok Y /\
    pd.columns Y = features_df1 /\
    nrows Y = nrows df2 /\
    (forall c, In c (pd.columns expanded_df2) -> ~ In c features_df1 ->
               ~ In c (pd.columns Y)).
Proof.
  apply (transform_columns_eq_final_columns
           reverse_order fitted_df1 df2 expanded_df2 features_df1).
  - reflexivity.
  - reflexivity.
  - intros c Hc. each_member Hc ltac:(vm_compute; lia).
Defined.

Lemma transform_zero_fills_missing_df2 :
  exists Y,
    transform reverse_order fitted_df1 df2 = Ok Y /\
    In "baz_d" (pd.columns Y) /\
    (forall s, In ("baz_d", s) (items Y) ->
               values s = repeat (Int 0) (nrows df2) /\
               List.length (values s) = nrows df2).
Proof.
  apply (transform_zero_fills_missing
           reverse_order fitted_df1 df2 expanded_df2 features_df1 "baz_d").
  - reflexivity.
  - reflexivity.
  - simpl. tauto.
  - not_a_member.
Defined.

Lemma transform_reproduces_fit_table_df1 :
  transform insertion_order fitted_df1 df1 = Ok expanded_df1 /\
  fit_transform insertion_order (__init__ None) df1
  = (fitted_df1, transform insertion_order fitted_df1 df1).
Proof.
  apply (transform_reproduces_fit_table
           insertion_order (__init__ None) fitted_df1 df1 expanded_df1).
  - reflexivity.
  - reflexivity.
  - apply NoDup_by_nodup. reflexivity.
Defined.

Lemma no_categorical_columns_identity_numeric :
  exists self',
    fit (__init__ None) df_numeric = (self', Ok tt) /\
    input_columns self' = Some [] /\
    final_columns self' = Some (pd.columns df_numeric) /\
    transform insertion_order self' df_numeric = Ok df_numeric.
Proof.
  apply (no_categorical_columns_identity
           insertion_order (__init__ None) df_numeric).
  - discriminate.
  - discriminate.
  - apply NoDup_by_nodup. reflexivity.
  - intros p Hp. each_member Hp ltac:(reflexivity).
Defined.

Lemma transform_zero_fills_absent_passthrough_foo :
  exists Y,
    transform insertion_order fitted_df1 df_without_foo = Ok Y /\
    In "foo" (pd.columns Y) /\
    (forall s', In ("foo", s') (items Y) ->
                values s' = repeat (Int 0) (nrows df_without_foo) /\
                List.length (values s') = nrows df_without_foo).
Proof.
  apply (transform_zero_fills_absent_passthrough
           insertion_order (__init__ None) fitted_df1 df1 df_without_foo
           expanded_without_foo "foo" (ints [1; 2]%Z)).
  - reflexivity.
  - apply NoDup_by_nodup. reflexivity.
  - simpl. tauto.
  - reflexivity.
  - reflexivity.
  - not_a_member.
Defined.

(** ** Column names that collide *)

(** Fitted on [bar_a, bar] with value [c], then given value [a]: the
    expansion carries the name [bar_a] twice and the output has three
    columns, [bar_a, bar_a, bar_c], against the two of [final_columns]. *)
Lemma transform_columns_collision :
  ~ (forall (o : SetOrder) (self self' : GetDummies) (T X Y : DataFrame),
        fit self T = (self', Ok tt) ->
        transform o self' X = Ok Y ->
        final_columns self' = Some (pd.columns Y)).
Proof.
  intros H.
  specialize (H insertion_order (__init__ None)
                (fst (fit (__init__ None) df_named_like_indicator))
                df_named_like_indicator df_value_a
                (table_of
                   (transform insertion_order
                      (fst (fit (__init__ None) df_named_like_indicator))
                      df_value_a))
                eq_refl eq_refl).
  vm_compute in H. discriminate H.
Qed.

(** Fitted on, and given, [bar_a, bar] with value [a]: the expansion has
    two columns named [bar_a] and the output has four. *)
Lemma transform_fit_table_collision :
  ~ (forall (o : SetOrder) (self self' : GetDummies) (T X' : DataFrame),
        fit self T = (self', Ok tt) ->
        pd.get_dummies T (input_columns self') = Ok X' ->
        transform o self' T = Ok X').
Proof.
  intros H.
  specialize (H insertion_order (__init__ None)
                (fst (fit (__init__ None) df_value_a)) df_value_a
                (table_of (pd.get_dummies df_value_a (Some ["bar"])))
                eq_refl eq_refl).
  vm_compute in H. discriminate H.
Qed.

(** A table of two numeric columns, both labelled [a]: [transform] returns
    four columns. *)
Lemma no_categorical_columns_repeated_label :
  ~ (forall (o : SetOrder) (self self' : GetDummies) (T : DataFrame),
        (forall p, In p (items T) ->
           mem_selector (tag_of (dtype_of (snd p))) (dtypes self) = false) ->
        fit self T = (self', Ok tt) ->
        transform o self' T = Ok T).
Proof.
  intros H.
  assert (Hnone : forall p, In p (items df_repeated_label) ->
            mem_selector (tag_of (dtype_of (snd p)))
                         (dtypes (__init__ None)) = false).
  { intros p Hp. each_member Hp ltac:(reflexivity). }
  specialize (H insertion_order (__init__ None)
                (fst (fit (__init__ None) df_repeated_label))
                df_repeated_label Hnone eq_refl).
  vm_compute in H. discriminate H.
Qed.

(** Fitted on [bar_a, bar]; the later table lacks [bar_a] but its [bar]
    holds [a]: the output column [bar_a] is the indicator of that value,
    1 in its row, not zero. *)
Lemma absent_passthrough_collision :
  ~ (forall (o : SetOrder) (self self' : GetDummies) (T X Y : DataFrame)
            (c : label) (s s' : Series),
        fit self T = (self', Ok tt) ->
        In (c, s) (items T) ->
        mem_selector (tag_of (dtype_of s)) (dtypes self) = false ->
        ~ In c (pd.columns X) ->
        transform o self' X = Ok Y ->
        In (c, s') (items Y) ->
        values s' = repeat (Int 0) (nrows X)).
Proof.
  intros H.
  assert (Habsent : ~ In "bar_a" (pd.columns df_only_bar)) by not_a_member.
  specialize (H insertion_order (__init__ None)
                (fst (fit (__init__ None) df_named_like_indicator))
                df_named_like_indicator df_only_bar
                (table_of
                   (transform insertion_order
                      (fst (fit (__init__ None) df_named_like_indicator))
                      df_only_bar))
                "bar_a" (ints [5; 6]%Z) (mkSeries uint8 [Int 1])
                eq_refl (or_introl eq_refl) eq_refl Habsent eq_refl
                (or_introl eq_refl)).
  vm_compute in H. discriminate H.
Qed.

(** ** When [fit] returns, and what a call that raises leaves behind *)

Lemma get_dummies_own_columns_error
      (T : DataFrame) (cs : list label) (e : exn) :
  (forall c, In c cs -> In c (pd.columns T)) ->
  pd.get_dummies T (Some cs) = Err e ->
  e = ValueError /\ items T = [].
Proof.
  intros Hall Herr. destruct T as [n its]. destruct its as [| p its].
  - destruct cs as [| c cs].
    + inversion Herr. auto.
    + exfalso. exact (Hall c (or_introl eq_refl)).
  - destruct (get_dummies_present (mkDataFrame n (p :: its)) cs) as [X' HX'];
      [discriminate | exact Hall |]. congruence.
Qed.

Lemma selected_columns_present (T : DataFrame) (f : label * Series -> bool) :
  forall c, In c (map fst (filter f (items T))) -> In c (pd.columns T).
Proof.
  intros c Hc. apply in_map_iff in Hc. destruct Hc as (p & <- & Hp).
  apply filter_In in Hp. apply in_map. tauto.
Qed.

Lemma fit_returned_conditions (self self' : GetDummies) (T : DataFrame) :
  fit self T = (self', Ok tt) -> dtypes self <> [] /\ items T <> [].
Proof.
  intros Hfit. split.
  - intros Hd. rewrite (fit_without_selectors self T Hd) in Hfit.
    discriminate.
  - intros Hnil. destruct (dtypes self) as [| d ds] eqn:Hd.
    + rewrite (fit_without_selectors self T Hd) in Hfit. discriminate.
    + destruct T as [n its]. simpl in Hnil. subst its.
      rewrite fit_without_columns in Hfit by (rewrite Hd; discriminate).
      discriminate.
Qed.

(** X1: [fit] returns exactly when the encoder has at least one selector
    and the table at least one column; a call that raises raises
    ValueError and leaves [final_columns] and [dtypes] as they were. *)
Theorem fit_returns_iff (self : GetDummies) (T : DataFrame) :
  ((exists self', fit self T = (self', Ok tt))
   <-> dtypes self <> [] /\ items T <> []) /\
  (forall self' e,
      fit self T = (self', Err e) ->
      e = ValueError /\
      final_columns self' = final_columns self /\
      dtypes self' = dtypes self).
Proof.
  split; [split |].
  - intros [self' Hfit]. exact (fit_returned_conditions self self' T Hfit).
  - intros [Hd Hne]. now apply fit_returns.
  - intros self' e Hfit. destruct (dtypes self) as [| d ds] eqn:Hd.
    + rewrite (fit_without_selectors self T Hd) in Hfit.
      inversion Hfit; subst. auto.
    + assert (Hd' : dtypes self <> []) by (rewrite Hd; discriminate).
      unfold fit in Hfit.
      rewrite (select_dtypes_include T (dtypes self) Hd') in Hfit.
      simpl in Hfit.
      match type of Hfit with
      | context [pd.get_dummies T (Some ?cs)] =>
        destruct (pd.get_dummies T (Some cs)) as [X' | e'] eqn:Hexp
      end; inversion Hfit; subst. simpl.
      apply get_dummies_own_columns_error in Hexp.
      * destruct Hexp as [-> _]. rewrite Hd. auto.
      * apply selected_columns_present.
Qed.

(** ** [transform] on the table just fitted *)

(** X2: after a [fit] that returned, [transform] on the same table
    returns a table, whatever its labels; so [fit_transform] raises only
    when [fit] does. *)
Theorem transform_after_fit_returns
        (o : SetOrder) (self self' : GetDummies) (T : DataFrame) :
  fit self T = (self', Ok tt) ->
  succeeds (transform o self' T) /\
  succeeds (snd (fit_transform o self T)).
Proof.
  intros Hfit.
  assert (Hgo : succeeds (transform o self' T)).
  { pose proof (fit_returned self self' T Hfit) as (sel & X' & Hsel & Hexp & ->).
    destruct (fit_returned_conditions self _ T Hfit) as [Hd Hne].
    rewrite (select_dtypes_include T (dtypes self) Hd) in Hsel.
    inversion Hsel; subst sel.
    eapply transform_returns; [reflexivity | reflexivity | exact Hne |].
    apply selected_columns_present. }
  split; [exact Hgo |].
  unfold fit_transform. rewrite Hfit. simpl. exact Hgo.
Qed.

Lemma transform_after_fit_returns_repeated_label :
  succeeds (transform insertion_order
              (fst (fit (__init__ None) df_repeated_label))
              df_repeated_label) /\
  succeeds (snd (fit_transform insertion_order (__init__ None)
                               df_repeated_label)).
Proof.
  exact (transform_after_fit_returns insertion_order (__init__ None)
           (fst (fit (__init__ None) df_repeated_label))
           df_repeated_label eq_refl).
Defined.

(** ** Every way [transform] ends *)

(** X3: for an encoder that has recorded [input_columns], [transform]
    raises KeyError when a recorded column is not in the table; otherwise
    ValueError when the table has no column; otherwise TypeError when
    [final_columns] was never set; otherwise it returns a table. *)
Theorem transform_outcomes
        (o : SetOrder) (self : GetDummies) (X : DataFrame) (cs : list label) :
  input_columns self = Some cs ->
  ((exists c, In c cs /\ ~ In c (pd.columns X)) ->
   transform o self X = Err KeyError) /\
  ((forall c, In c cs -> In c (pd.columns X)) -> items X = [] ->
   transform o self X = Err ValueError) /\
  ((forall c, In c cs -> In c (pd.columns X)) -> items X <> [] ->
   final_columns self = None ->
   transform o self X = Err TypeError) /\
  ((forall c, In c cs -> In c (pd.columns X)) -> items X <> [] ->
   final_columns self <> None ->
   succeeds (transform o self X)).
Proof.
  intros Hcs. repeat split.
  - intros (c & Hin & Hnot).
    unfold transform. now rewrite Hcs, (get_dummies_absent X cs c Hin Hnot).
  - intros Hall Hnil. destruct X as [n its]. simpl in Hnil. subst its.
    destruct cs as [| c cs];
      [| exfalso; exact (Hall c (or_introl eq_refl))].
    unfold transform. rewrite Hcs. reflexivity.
  - intros Hall Hne Hnone.
    destruct (get_dummies_present X cs Hne Hall) as [X1 HX1].
    unfold transform. rewrite Hcs, HX1. simpl. now rewrite Hnone.
  - intros Hall Hne Hset.
    destruct (final_columns self) as [final |] eqn:Hfinal; [| congruence].
    exact (transform_returns o self X cs final Hcs Hfinal Hne Hall).
Qed.

Lemma transform_outcomes_fitted_df1 :
  ((exists c, In c ["bar"; "baz"; "grok"] /\ ~ In c (pd.columns df_no_columns)) ->
   transform insertion_order fitted_df1 df_no_columns = Err KeyError) /\
  ((forall c, In c ["bar"; "baz"; "grok"] -> In c (pd.columns df_no_columns)) ->
   items df_no_columns = [] ->
   transform insertion_order fitted_df1 df_no_columns = Err ValueError) /\
  ((forall c, In c ["bar"; "baz"; "grok"] -> In c (pd.columns df_no_columns)) ->
   items df_no_columns <> [] ->
   final_columns fitted_df1 = None ->
   transform insertion_order fitted_df1 df_no_columns = Err TypeError) /\
  ((forall c, In c ["bar"; "baz"; "grok"] -> In c (pd.columns df_no_columns)) ->
   items df_no_columns <> [] ->
   final_columns fitted_df1 <> None ->
   succeeds (transform insertion_order fitted_df1 df_no_columns)).
Proof.
  exact (transform_outcomes insertion_order fitted_df1 df_no_columns
           ["bar"; "baz"; "grok"] eq_refl).
Defined.

(** What a call of [transform] that returned has computed. *)
Lemma transform_returned
      (o : SetOrder) (self : GetDummies) (X Y : DataFrame) :
  transform o self X = Ok Y ->
  exists X1 final,
    pd.get_dummies X (input_columns self) = Ok X1 /\
    final_columns self = Some final /\
    Y = mkDataFrame (nrows X1) (flat_map (reconciled X1) final).
Proof.
  intros Hrun.
  destruct (pd.get_dummies X (input_columns self)) as [X1 | e] eqn:Hexp.
  - destruct (final_columns self) as [final |] eqn:Hfinal.
    + rewrite (transform_closed_form o self X X1 final Hexp Hfinal) in Hrun.
      inversion Hrun. eauto.
    + unfold transform in Hrun. rewrite Hexp, Hfinal in Hrun. discriminate.
  - unfold transform in Hrun. rewrite Hexp in Hrun. discriminate.
Qed.

(** ** The names of the output *)

(** X4: whatever labels repeat, the column names of a table returned by
    [transform] are, as a set, exactly the recorded [final_columns], and
    the table never has fewer columns than [final_columns] has names. *)
Theorem transform_names_are_final
        (o : SetOrder) (self : GetDummies) (X Y : DataFrame)
        (final : list label) :
  final_columns self = Some final ->
  transform o self X = Ok Y ->
  (forall c, In c (pd.columns Y) <-> In c final) /\
  List.length final <= List.length (items Y).
Proof.
  intros Hfinal Hrun. split.
  - intros c. split.
    + exact (transform_columns_incl o self X Y final c Hfinal Hrun).
    + intros Hc.
      destruct (transform_returned o self X Y Hrun)
        as (X1 & final' & _ & Hfinal' & ->).
      assert (final' = final) by congruence. subst final'.
      destruct (reconciled_nonempty X1 c) as [s Hs].
      unfold pd.columns. simpl. apply in_map_iff. exists (c, s).
      split; [reflexivity |]. apply in_flat_map. now exists c.
  - destruct (transform_returned o self X Y Hrun)
      as (X1 & final' & _ & Hfinal' & ->).
    assert (final' = final) by congruence. subst final'. simpl.
    apply flat_map_length_ge. intros k _.
    exact (proj1 (reconciled_length X1 k)).
Qed.

Lemma transform_names_are_final_collision :
  (forall c,
      In c (pd.columns
              (table_of (transform insertion_order
                           (fst (fit (__init__ None) df_named_like_indicator))
                           df_value_a)))
      <-> In c ["bar_a"; "bar_c"]) /\
  List.length ["bar_a"; "bar_c"]
  <= List.length
       (items (table_of (transform insertion_order
                           (fst (fit (__init__ None) df_named_like_indicator))
                           df_value_a))).
Proof.
  exact (transform_names_are_final insertion_order
           (fst (fit (__init__ None) df_named_like_indicator)) df_value_a _
           ["bar_a"; "bar_c"] eq_refl eq_refl).
Defined.

(** ** Where the columns of the output come from *)

Lemma select_dtypes_items (X d : DataFrame) (include exclude : list selector) :
  pd.select_dtypes X include exclude = Ok d ->
  nrows d = nrows X /\ incl (items d) (items X).
Proof.
  unfold pd.select_dtypes. intros H.
  assert (forall f, incl (filter f (items X)) (items X)) as Hincl
    by (intros f p Hp; apply filter_In in Hp; tauto).
  destruct include, exclude; try discriminate;
    destruct (existsb _ _); try discriminate;
    inversion H; subst d; simpl; split; auto.
Qed.

Lemma getitem_items_incl (its sel : list (label * Series)) (keys : list label) :
  pd.getitem_items its keys = Ok sel -> incl sel its.
Proof.
  revert sel. induction keys as [| k ks IH]; intros sel H; simpl in H.
  - inversion H. intros p [].
  - destruct (pd.lookup_all k its) as [| q hit] eqn:E; [discriminate |].
    destruct (pd.getitem_items its ks) as [rest | e]; [| discriminate].
    simpl in H. inversion H; subst sel. intros p Hp.
    change (In p ((q :: hit) ++ rest)) in Hp.
    apply in_app_or in Hp. destruct Hp as [Hp | Hp].
    + rewrite <- E in Hp. apply lookup_all_In in Hp. tauto.
    + exact (IH rest eq_refl p Hp).
Qed.

(** A column of the expansion is a column of the table, unchanged, or one
    of the indicator columns made of a column of the table. *)
Lemma get_dummies_items (X X1 : DataFrame) (cols : option (list label)) :
  pd.get_dummies X cols = Ok X1 ->
  forall p, In p (items X1) ->
            In p (items X) \/ exists q, In q (items X) /\ In p (dummies_of q).
Proof.
  unfold pd.get_dummies. intros H p Hp.
  destruct (match cols with
            | Some cs => pd.getitem X cs
            | None => pd.select_dtypes X [sel_object; sel_category] []
            end) as [enc | e] eqn:Henc; [| discriminate].
  simpl in H.
  assert (Hsub : incl (items enc) (items X)).
  { destruct cols as [cs |].
    - unfold pd.getitem in Henc.
      destruct (pd.getitem_items (items X) cs) as [sel | e] eqn:Hsel;
        [| discriminate].
      inversion Henc; subst enc. simpl.
      exact (getitem_items_incl (items X) sel cs Hsel).
    - exact (proj2 (select_dtypes_items X enc _ _ Henc)). }
  match type of H with
  | bind ?w _ = _ => destruct w as [frames | e] eqn:Hw; [| discriminate]
  end.
  simpl in H.
  assert (Hkept : forall fr, In fr frames -> incl fr (items X)).
  { destruct (Nat.eqb _ _).
    - inversion Hw; subst frames. intros fr [].
    - destruct cols as [cs |].
      + unfold pd.drop in Hw. destruct (forallb _ cs); [| discriminate].
        inversion Hw; subst frames. intros fr [<- | []] q Hq.
        simpl in Hq. apply filter_In in Hq. tauto.
      + cbn in Hw. inversion Hw; subst frames. intros fr [<- | []] q Hq.
        apply filter_In in Hq. tauto. }
  unfold pd.concat in H.
  destruct (frames ++ _) as [| fr0 frs] eqn:Hall; [discriminate |].
  inversion H; subst X1.
  change (In p (List.concat (fr0 :: frs))) in Hp. rewrite <- Hall in Hp.
  apply in_concat in Hp. destruct Hp as (fr & Hfr & Hpfr).
  apply in_app_or in Hfr. destruct Hfr as [Hfr | Hfr].
  - left. exact (Hkept fr Hfr p Hpfr).
  - right. apply in_map_iff in Hfr. destruct Hfr as (q & <- & Hq).
    exists q. split; [exact (Hsub q Hq) | exact Hpfr].
Qed.

Lemma rectangular_In (df : DataFrame) (p : label * Series) :
  rectangular df = true -> In p (items df) ->
  List.length (values (snd p)) = nrows df.
Proof.
  unfold rectangular. intros Hrect Hp.
  rewrite forallb_forall in Hrect. apply Nat.eqb_eq. now apply Hrect.
Qed.

Lemma dummies_of_In (q p : label * Series) :
  In p (dummies_of q) ->
  exists lvl,
    In lvl (pd.levels (snd q)) /\
    p = ((fst q ++ "_" ++ str lvl)%string, pd.indicator lvl (values (snd q))).
Proof.
  unfold dummies_of, pd.get_dummies_1d. intros Hp.
  apply in_map_iff in Hp. destruct Hp as (lvl & <- & Hlvl). eauto.
Qed.

Lemma indicator_cells (lvl : cell) (vs : list cell) :
  List.length (values (pd.indicator lvl vs)) = List.length vs /\
  Forall (fun v => v = Int 0 \/ v = Int 1) (values (pd.indicator lvl vs)).
Proof.
  simpl. split; [apply length_map |].
  apply Forall_forall. intros v Hv. apply in_map_iff in Hv.
  destruct Hv as (x & <- & _). destruct (cell_eqb x lvl); auto.
Qed.

Lemma transform_column_origin
      (o : SetOrder) (self : GetDummies) (X Y : DataFrame) :
  transform o self X = Ok Y ->
  forall p, In p (items Y) ->
    In p (items X) \/
    (exists q lvl,
        In q (items X) /\ In lvl (pd.levels (snd q)) /\
        p = ((fst q ++ "_" ++ str lvl)%string,
             pd.indicator lvl (values (snd q))) /\
        Forall (fun v => v = Int 0 \/ v = Int 1) (values (snd p))) \/
    snd p = pd.constant (nrows X) 0.
Proof.
  intros Hrun p Hp.
  destruct (transform_returned o self X Y Hrun)
    as (X1 & final & Hexp & _ & ->).
  simpl in Hp. apply in_flat_map in Hp. destruct Hp as (k & _ & Hp).
  unfold reconciled in Hp.
  destruct (pd.lookup_all k (items X1)) as [| q0 hit] eqn:E.
  - destruct Hp as [<- | []]. right. right. simpl.
    now rewrite (get_dummies_nrows X X1 _ Hexp).
  - rewrite <- E in Hp. apply lookup_all_In in Hp. destruct Hp as [Hp _].
    destruct (get_dummies_items X X1 _ Hexp p Hp) as [Hin | (q & Hq & Hd)];
      [now left | right; left].
    destruct (dummies_of_In q p Hd) as (lvl & Hlvl & ->).
    exists q, lvl. repeat split; auto.
    exact (proj2 (indicator_cells lvl (values (snd q)))).
Qed.

(** X5: every column of a table returned by [transform] is a column of
    the input table with its values unchanged, or the 0/1 indicator of one
    level of a column of the input table, named [<column>_<level>], or a
    column of zeros over the rows of the input. *)
Theorem transform_columns_provenance
        (o : SetOrder) (self : GetDummies) (X Y : DataFrame) :
  transform o self X = Ok Y ->
  forall p, In p (items Y) ->
    In p (items X) \/
    (exists q lvl,
        In q (items X) /\ In lvl (pd.levels (snd q)) /\
        p = ((fst q ++ "_" ++ str lvl)%string,
             pd.indicator lvl (values (snd q))) /\
        Forall (fun v => v = Int 0 \/ v = Int 1) (values (snd p))) \/
    snd p = pd.constant (nrows X) 0.
Proof. exact (transform_column_origin o self X Y). Qed.

Lemma transform_columns_provenance_df2 :
  In ("bar_a", mkSeries uint8 [Int 1; Int 0; Int 0]) (items df2) \/
  (exists q lvl,
      In q (items df2) /\ In lvl (pd.levels (snd q)) /\
      ("bar_a", mkSeries uint8 [Int 1; Int 0; Int 0])
      = ((fst q ++ "_" ++ str lvl)%string,
         pd.indicator lvl (values (snd q))) /\
      Forall (fun v => v = Int 0 \/ v = Int 1)
             (values (snd ("bar_a", mkSeries uint8 [Int 1; Int 0; Int 0])))) \/
  snd ("bar_a", mkSeries uint8 [Int 1; Int 0; Int 0])
  = pd.constant (nrows df2) 0.
Proof.
  apply (transform_columns_provenance reverse_order fitted_df1 df2
           (table_of (transform reverse_order fitted_df1 df2)) eq_refl
           ("bar_a", mkSeries uint8 [Int 1; Int 0; Int 0])).
  simpl. tauto.
Defined.

(** X6: on a table whose columns all have one cell per row, a table
    returned by [transform] has the rows of the input and one cell per
    row in every column. *)
Theorem transform_rectangular
        (o : SetOrder) (self : GetDummies) (X Y : DataFrame) :
  rectangular X = true ->
  transform o self X = Ok Y ->
  nrows Y = nrows X /\ rectangular Y = true.
Proof.
  intros Hrect Hrun.
  pose proof (transform_column_origin o self X Y Hrun) as Hprov.
  destruct (transform_returned o self X Y Hrun)
    as (X1 & final & Hexp & _ & HY).
  assert (Hrows : nrows Y = nrows X).
  { rewrite HY. simpl. exact (get_dummies_nrows X X1 _ Hexp). }
  split; [exact Hrows |].
  unfold rectangular. apply forallb_forall. intros p Hp.
  apply Nat.eqb_eq. rewrite Hrows.
  destruct (Hprov p Hp) as [Hin | [(q & lvl & Hq & _ & -> & _) | Hz]].
  - exact (rectangular_In X p Hrect Hin).
  - simpl. rewrite length_map.
    exact (rectangular_In X q Hrect Hq).
  - rewrite Hz. simpl. apply repeat_length.
Qed.

Lemma transform_rectangular_df2 :
  nrows (table_of (transform reverse_order fitted_df1 df2)) = nrows df2 /\
  rectangular (table_of (transform reverse_order fitted_df1 df2)) = true.
Proof.
  exact (transform_rectangular reverse_order fitted_df1 df2 _
           eq_refl eq_refl).
Defined.

(** ** The expansion of a table with pairwise distinct labels *)

Lemma get_dummies_all_present (X X1 : DataFrame) (cs : list label) :
  pd.get_dummies X (Some cs) = Ok X1 ->
  forall c, In c cs -> In c (pd.columns X).
Proof.
  intros Hexp c Hc.
  destruct (in_dec string_dec c (pd.columns X)) as [Hin | Hnot];
    [exact Hin |].
  rewrite (get_dummies_absent X cs c Hc Hnot) in Hexp. discriminate.
Qed.

Lemma lookup_all_one (its : list (label * Series)) (k : label) :
  NoDup (map fst its) -> In k (map fst its) ->
  List.length (pd.lookup_all k its) = 1.
Proof.
  intros Hnd Hk. apply in_map_iff in Hk. destruct Hk as (p & <- & Hp).
  now rewrite (lookup_all_NoDup its p Hnd Hp).
Qed.

Lemma flat_map_lookup_length (its : list (label * Series)) (cs : list label) :
  NoDup (map fst its) ->
  (forall k, In k cs -> In k (map fst its)) ->
  List.length (flat_map (fun k => pd.lookup_all k its) cs) = List.length cs.
Proof.
  intros Hnd. induction cs as [| k cs IH]; intros Hall; [reflexivity |].
  simpl. rewrite length_app, (lookup_all_one its k Hnd), IH.
  - reflexivity.
  - intros k' Hk'. apply Hall. now right.
  - apply Hall. now left.
Qed.

Lemma concat_returned (n : nat) (frames : list (list (label * Series)))
      (X1 : DataFrame) :
  pd.concat n frames = Ok X1 -> X1 = mkDataFrame n (List.concat frames).
Proof.
  unfold pd.concat. destruct frames; intros H; inversion H; reflexivity.
Qed.

(** With pairwise distinct labels in the table and among the columns to
    encode, the expansion is the columns that are not encoded, in table
    order, followed by the indicator columns of each encoded column, in the
    order the columns to encode were given. *)
Lemma get_dummies_distinct (X X1 : DataFrame) (cs : list label) :
  NoDup cs ->
  NoDup (pd.columns X) ->
  pd.get_dummies X (Some cs) = Ok X1 ->
  X1 = mkDataFrame (nrows X)
         (filter (fun p => negb (mem_label (fst p) cs)) (items X)
          ++ flat_map dummies_of
               (flat_map (fun k => pd.lookup_all k (items X)) cs)).
Proof.
  intros Hcs Hnd Hexp.
  pose proof (get_dummies_all_present X X1 cs Hexp) as Hall.
  unfold pd.get_dummies, pd.getitem in Hexp.
  rewrite (getitem_items_present (items X) cs Hall) in Hexp.
  simpl in Hexp.
  rewrite (flat_map_lookup_length (items X) cs Hnd Hall) in Hexp.
  destruct (Nat.eqb _ _) eqn:E; simpl in Hexp.
  - apply Nat.eqb_eq in E.
    assert (Hback : incl (pd.columns X) cs).
    { apply NoDup_length_incl; [exact Hcs | | exact Hall].
      unfold pd.columns. rewrite length_map. lia. }
    apply concat_returned in Hexp. rewrite Hexp. f_equal.
    rewrite filter_none.
    + simpl. symmetry. apply flat_map_concat_map.
    + intros p Hp. apply negb_false_iff, mem_label_In, Hback.
      unfold pd.columns. now apply in_map.
  - unfold pd.drop in Hexp.
    assert (forallb (fun c => mem_label c (pd.columns X)) cs = true) as Hf.
    { apply forallb_forall. intros c Hc. apply mem_label_In. auto. }
    rewrite Hf in Hexp. simpl in Hexp.
    inversion Hexp. f_equal. f_equal. symmetry. apply flat_map_concat_map.
Qed.

(** ** A column that is not encoded *)

(** X7: let the recorded [input_columns] be pairwise distinct and all
    present in a table [X] with pairwise distinct labels.  A column of [X]
    that is not among them and whose name is in [final_columns] is a
    column of the table [transform] returns, with the values it has in
    [X]. *)
Theorem transform_keeps_passthrough
        (o : SetOrder) (self : GetDummies) (X : DataFrame)
        (cs final : list label) (c : label) (s : Series) :
  input_columns self = Some cs ->
  final_columns self = Some final ->
  NoDup cs ->
  NoDup (pd.columns X) ->
  (forall k, In k cs -> In k (pd.columns X)) ->
  In (c, s) (items X) ->
  ~ In c cs ->
  In c final ->
  exists Y, transform o self X = Ok Y /\ In (c, s) (items Y).
Proof.
  intros Hcs Hfinal Hndcs Hnd Hall Hin Hnot Hc.
  assert (Hne : items X <> []) by (intros E; rewrite E in Hin; exact Hin).
  destruct (get_dummies_present X cs Hne Hall) as [X1 HX1].
  pose proof (get_dummies_distinct X X1 cs Hndcs Hnd HX1) as Hform.
  rewrite <- Hcs in HX1.
  eexists. split; [exact (transform_closed_form o self X X1 final HX1 Hfinal) |].
  simpl. apply in_flat_map. exists c. split; [exact Hc |].
  assert (Hx : In (c, s) (pd.lookup_all c (items X1))).
  { apply lookup_all_In. split; [| reflexivity].
    rewrite Hform. simpl. apply in_or_app. left. apply filter_In.
    split; [exact Hin |]. simpl. now apply negb_true_iff, mem_label_notin. }
  unfold reconciled.
  destruct (pd.lookup_all c (items X1)); [contradiction | exact Hx].
Qed.

Lemma transform_keeps_passthrough_foo :
  exists Y,
    transform reverse_order fitted_df1 df2 = Ok Y /\
    In ("foo", ints [3; 4; 4]%Z) (items Y).
Proof.
  apply (transform_keeps_passthrough reverse_order fitted_df1 df2
           ["bar"; "baz"; "grok"] features_df1 "foo" (ints [3; 4; 4]%Z)).
  - reflexivity.
  - reflexivity.
  - apply NoDup_by_nodup. reflexivity.
  - apply NoDup_by_nodup. reflexivity.
  - intros k Hk. each_member Hk ltac:(simpl; tauto).
  - simpl. tauto.
  - not_a_member.
  - simpl. tauto.
Defined.

(** ** A column the encoder has never seen *)

Lemma lookup_all_insert (k c : label) (s : Series)
      (l1 l2 : list (label * Series)) :
  k <> c ->
  pd.lookup_all k (l1 ++ (c, s) :: l2) = pd.lookup_all k (l1 ++ l2).
Proof.
  intros Hne. rewrite !lookup_all_app. f_equal.
  unfold pd.lookup_all. simpl.
  destruct (String.eqb k c) eqn:E; [| reflexivity].
  apply String.eqb_eq in E. contradiction.
Qed.

Lemma reconciled_ext (X1 X1' : DataFrame) (k : label) :
  nrows X1 = nrows X1' ->
  pd.lookup_all k (items X1) = pd.lookup_all k (items X1') ->
  reconciled X1 k = reconciled X1' k.
Proof. unfold reconciled. now intros -> ->. Qed.

(** X8: a column added to the table, anywhere, under a name that is
    neither a recorded categorical column nor one of [final_columns], does
    not change what [transform] returns (labels pairwise distinct). *)
Theorem transform_ignores_extra_column
        (o : SetOrder) (self : GetDummies) (X Y : DataFrame)
        (cs final : list label) (before after : list (label * Series))
        (c : label) (s : Series) :
  input_columns self = Some cs ->
  final_columns self = Some final ->
  NoDup cs ->
  items X = before ++ after ->
  NoDup (pd.columns (with_column X before after c s)) ->
  ~ In c cs ->
  ~ In c final ->
  transform o self X = Ok Y ->
  transform o self (with_column X before after c s) = Ok Y.
Proof.
  intros Hcs Hfinal Hndcs Hsplit Hnd2 Hnotcs Hnotfinal Hrun.
  destruct (transform_returned o self X Y Hrun)
    as (X1 & final' & Hexp & Hfinal' & ->).
  assert (final' = final) by congruence. subst final'. clear Hfinal'.
  rewrite Hcs in Hexp.
  assert (Hnd : NoDup (pd.columns X)).
  { unfold pd.columns, with_column in *. simpl in Hnd2.
    rewrite Hsplit, map_app. rewrite map_app in Hnd2. simpl in Hnd2.
    exact (NoDup_remove_1 _ _ _ Hnd2). }
  pose proof (get_dummies_all_present X X1 cs Hexp) as Hall.
  pose proof (get_dummies_distinct X X1 cs Hndcs Hnd Hexp) as Hform.
  set (X2 := with_column X before after c s) in *.
  assert (Hall2 : forall k, In k cs -> In k (pd.columns X2)).
  { intros k Hk. specialize (Hall k Hk). unfold pd.columns in *.
    unfold X2, with_column. simpl. rewrite Hsplit in Hall.
    rewrite map_app in *. simpl. apply in_app_or in Hall.
    apply in_or_app. simpl. tauto. }
  assert (Hne2 : items X2 <> []).
  { unfold X2, with_column. simpl. now destruct before. }
  destruct (get_dummies_present X2 cs Hne2 Hall2) as [X1' HX1'].
  pose proof (get_dummies_distinct X2 X1' cs Hndcs Hnd2 HX1') as Hform'.
  rewrite <- Hcs in HX1'.
  rewrite (transform_closed_form o self X2 X1' final HX1' Hfinal).
  assert (Hrows : nrows X1' = nrows X1) by (rewrite Hform, Hform'; reflexivity).
  rewrite Hrows. do 2 f_equal. apply flat_map_ext_In. intros k Hk.
  apply reconciled_ext; [exact Hrows |].
  assert (Hkc : k <> c) by (intros ->; contradiction).
  rewrite Hform, Hform'. simpl. rewrite !lookup_all_app. f_equal.
  - rewrite Hsplit. rewrite !filter_app. simpl.
    apply mem_label_notin in Hnotcs. rewrite Hnotcs. simpl.
    rewrite <- !filter_app. unfold pd.lookup_all. rewrite !filter_app.
    simpl. destruct (String.eqb k c) eqn:E; [| reflexivity].
    apply String.eqb_eq in E. contradiction.
  - do 2 f_equal. apply flat_map_ext_In. intros k' Hk'.
    rewrite Hsplit. apply lookup_all_insert. intros ->. contradiction.
Qed.

Lemma transform_ignores_extra_column_new :
  transform reverse_order fitted_df1
    (with_column df2_shared (items df2_shared) [] "new" (ints [0; 0; 0]%Z))
  = Ok (table_of (transform reverse_order fitted_df1 df2_shared)).
Proof.
  apply (transform_ignores_extra_column reverse_order fitted_df1 df2_shared _
           ["bar"; "baz"; "grok"] features_df1 (items df2_shared) []
           "new" (ints [0; 0; 0]%Z)).
  - reflexivity.
  - reflexivity.
  - apply NoDup_by_nodup. reflexivity.
  - reflexivity.
  - apply NoDup_by_nodup. reflexivity.
  - not_a_member.
  - not_a_member.
  - reflexivity.
Defined.

Example with_column_new_is_df2 :
  with_column df2_shared (items df2_shared) [] "new" (ints [0; 0; 0]%Z) = df2.
Proof. reflexivity. Qed.

(** ** The layout of the feature names *)

Lemma NoDup_map_filter {A B : Type} (g : A -> B) (f : A -> bool) (l : list A) :
  NoDup (map g l) -> NoDup (map g (filter f l)).
Proof.
  induction l as [| a l IH]; intros Hnd; simpl; [constructor |].
  simpl in Hnd. inversion Hnd as [| ? ? Ha Hnd']; subst.
  destruct (f a); simpl; [constructor |]; auto.
  intros Hin. apply Ha. apply in_map_iff in Hin.
  destruct Hin as (x & Hx & Hxin). apply filter_In in Hxin.
  apply in_map_iff. exists x. tauto.
Qed.

Lemma map_fst_flat_map {A : Type} (f : A -> list (label * Series)) (l : list A) :
  map fst (flat_map f l) = flat_map (fun a => map fst (f a)) l.
Proof.
  induction l as [| a l IH]; simpl; [reflexivity |].
  now rewrite map_app, IH.
Qed.

Lemma mem_label_filtered (its : list (label * Series))
      (f : label * Series -> bool) (p : label * Series) :
  NoDup (map fst its) -> In p its ->
  mem_label (fst p) (map fst (filter f its)) = f p.
Proof.
  intros Hnd Hp. destruct (f p) eqn:Hf.
  - apply mem_label_In, in_map, filter_In. auto.
  - apply mem_label_notin. intros Hin. apply in_map_iff in Hin.
    destruct Hin as (q & Hq & Hqin). apply filter_In in Hqin.
    destruct Hqin as [Hqin Hfq]. destruct p as [k a], q as [k' b].
    simpl in Hq. subst k'.
    assert (b = a) by (eapply fst_NoDup_inj; eauto). subst b. congruence.
Qed.

Lemma map_fst_dummies_of (p : label * Series) :
  map fst (dummies_of p) = indicator_names p.
Proof.
  unfold dummies_of, pd.get_dummies_1d, indicator_names.
  rewrite map_map. reflexivity.
Qed.

(** X9: after [fit] returned on a table with pairwise distinct labels,
    [input_columns] holds the labels of the columns whose dtype matches a
    selector, in table order, and [get_feature_names] returns first the
    labels of all the other columns, in table order, and then, for each
    matching column in table order, one name [<column>_<level>] per level
    of that column: the indicator columns do not stand where the encoded
    column stood. *)
Theorem fit_feature_names_layout
        (self self' : GetDummies) (T : DataFrame) :
  fit self T = (self', Ok tt) ->
  NoDup (pd.columns T) ->
  input_columns self' = Some (map fst (filter (selected self) (items T))) /\
  get_feature_names self'
  = Ok (map fst (filter (fun p => negb (selected self p)) (items T))
        ++ flat_map indicator_names (filter (selected self) (items T))).
Proof.
  intros Hfit Hnd.
  destruct (fit_returned_conditions self self' T Hfit) as [Hd _].
  destruct (fit_returned self self' T Hfit) as (sel & X' & Hsel & Hexp & ->).
  rewrite (select_dtypes_include T (dtypes self) Hd) in Hsel.
  inversion Hsel; subst sel. unfold pd.columns at 1 in Hexp.
  simpl in Hexp. fold (selected self) in Hexp.
  split; [reflexivity |].
  assert (Hndcs : NoDup (map fst (filter (selected self) (items T))))
    by (apply NoDup_map_filter; exact Hnd).
  rewrite (get_dummies_distinct T X' _ Hndcs Hnd Hexp).
  unfold get_feature_names, pd.columns. simpl. f_equal.
  rewrite map_app. f_equal.
  - f_equal. apply filter_ext_in. intros p Hp.
    now rewrite (mem_label_filtered (items T) (selected self) p Hnd Hp).
  - rewrite (lookup_selected (items T) Hnd)
      by (intros p Hp; apply filter_In in Hp; tauto).
    rewrite map_fst_flat_map. apply flat_map_ext.
    intros p. apply map_fst_dummies_of.
Qed.

Lemma fit_feature_names_layout_df1 :
  input_columns fitted_df1
  = Some (map fst (filter (selected (__init__ None)) (items df1))) /\
  get_feature_names fitted_df1
  = Ok (map fst (filter (fun p => negb (selected (__init__ None) p))
                        (items df1))
        ++ flat_map indicator_names
             (filter (selected (__init__ None)) (items df1))).
Proof.
  apply (fit_feature_names_layout (__init__ None) fitted_df1 df1).
  - reflexivity.
  - apply NoDup_by_nodup. reflexivity.
Defined.

(** ** Any number of calls of [fit] *)

Lemma fit_each_snoc (self : GetDummies) (Ts : list DataFrame) (T : DataFrame) :
  fit_each self (Ts ++ [T]) = fst (fit (fit_each self Ts) T).
Proof. unfold fit_each. now rewrite fold_left_app. Qed.

Lemma fit_each_dtypes (self : GetDummies) (Ts : list DataFrame) :
  dtypes (fit_each self Ts) = dtypes self.
Proof.
  induction Ts as [| T Ts IH] using rev_ind; [reflexivity |].
  now rewrite fit_each_snoc, fit_keeps_dtypes.
Qed.

(** The outcome of [fit] depends on the encoder through [dtypes] alone;
    so does the state it leaves when it returns, and when it raises it
    leaves [final_columns] alone. *)
Lemma fit_same_dtypes (s s' : GetDummies) (T : DataFrame) :
  dtypes s = dtypes s' ->
  snd (fit s T) = snd (fit s' T) /\
  (snd (fit s T) = Ok tt -> fst (fit s T) = fst (fit s' T)) /\
  (snd (fit s T) <> Ok tt -> final_columns (fst (fit s T)) = final_columns s).
Proof.
  intros Hd. unfold fit. rewrite <- Hd.
  destruct (pd.select_dtypes T (dtypes s) []) as [sel | e]; simpl.
  - destruct (pd.get_dummies T (Some (pd.columns sel))) as [X' | e]; simpl.
    + repeat split; auto. congruence.
    + repeat split; auto. discriminate.
  - repeat split; auto. discriminate.
Qed.

(** X10: after any sequence of calls of [fit] on one encoder,
    [final_columns] is what the last call that returned recorded, and
    those columns are a function of that table and the selectors alone;
    calls that raised since have not touched it, and when no call
    returned it is as it was before the first. *)
Theorem fit_each_final_columns (self : GetDummies) (Ts : list DataFrame) :
  final_columns (fit_each self Ts)
  = match find (fit_ok self) (rev Ts) with
    | Some T => final_columns (fst (fit self T))
    | None => final_columns self
    end.
Proof.
  induction Ts as [| T Ts IH] using rev_ind; [reflexivity |].
  rewrite fit_each_snoc, rev_unit. simpl.
  destruct (fit_same_dtypes (fit_each self Ts) self T (fit_each_dtypes self Ts))
    as (Hout & Hok & Herr).
  unfold fit_ok. rewrite <- Hout.
  destruct (snd (fit (fit_each self Ts) T)) as [[] | e] eqn:E.
  - now rewrite (Hok eq_refl).
  - rewrite Herr by discriminate. exact IH.
Qed.

(** ** The feature ranking cell *)

Lemma ranking_loop_seq {V : Type} (names : list label) (imps : list V)
      (indices : list nat) (n : nat) :
  List.length names = n ->
  List.length imps = n ->
  (forall i, In i indices -> i < n) ->
  forall k a,
    List.length (fst (ranking_loop (seq a k) names imps indices))
    = Nat.min k (List.length indices - a) /\
    (snd (ranking_loop (seq a k) names imps indices) = finished
     <-> k = 0 \/ a + k <= List.length indices).
Proof.
  intros Hn Hi Hvalid. induction k as [| k IH]; intros a.
  - simpl. split; [reflexivity |]. split; auto.
  - cbn [seq ranking_loop]. destruct (nth_error indices a) as [i |] eqn:Ea.
    + assert (Ha : a < List.length indices)
        by (apply nth_error_Some; congruence).
      assert (Hlt : i < n) by (apply Hvalid; eapply nth_error_In; eauto).
      destruct (nth_error names i) as [nm |] eqn:E1;
        [| apply nth_error_None in E1; lia].
      destruct (nth_error imps i) as [v |] eqn:E2;
        [| apply nth_error_None in E2; lia].
      specialize (IH (S a)).
      destruct (ranking_loop (seq (S a) k) names imps indices) as [lines e].
      cbn [fst snd] in IH |- *. destruct IH as [IHlen IHend].
      split; [cbn [List.length]; lia |].
      rewrite IHend. split; intros [H | H]; right; lia.
    + apply nth_error_None in Ea. cbn [fst snd List.length]. split; [lia |].
      split; [discriminate | intros [H | H]; lia].
Qed.

Lemma ranking_loop_line {V : Type} (names : list label) (imps : list V)
      (indices : list nat) :
  forall k a j,
    j < k ->
    snd (ranking_loop (seq a k) names imps indices) = finished ->
    exists i nm v,
      nth_error indices (a + j) = Some i /\
      nth_error names i = Some nm /\
      nth_error imps i = Some v /\
      nth_error (fst (ranking_loop (seq a k) names imps indices)) j
      = Some (a + j + 1, nm, v).
Proof.
  induction k as [| k IH]; intros a j Hj Hend; [lia |].
  simpl in *. destruct (nth_error indices a) as [i |] eqn:Ea;
    [| discriminate].
  destruct (nth_error names i) as [nm |] eqn:E1; [| discriminate].
  destruct (nth_error imps i) as [v |] eqn:E2; [| discriminate].
  specialize (IH (S a)).
  destruct (ranking_loop (seq (S a) k) names imps indices) as [lines e].
  simpl in *. destruct j as [| j].
  - exists i, nm, v. rewrite Nat.add_0_r. auto.
  - destruct (IH j ltac:(lia) Hend) as (i' & nm' & v' & H1 & H2 & H3 & H4).
    exists i', nm', v'. replace (a + S j) with (S a + j) by lia. auto.
Qed.

Lemma sorted_positions (sorted : list nat) (n : nat) :
  Permutation sorted (seq 0 n) ->
  List.length (slice_down_to 10 sorted) = n - 11 /\
  (forall i, In i (slice_down_to 10 sorted) -> i < n).
Proof.
  intros Hperm. unfold slice_down_to. split.
  - rewrite length_rev, length_skipn, (Permutation_length Hperm), length_seq.
    reflexivity.
  - intros i Hi. apply in_rev in Hi.
    assert (In i sorted) as Hs.
    { rewrite <- (firstn_skipn 11 sorted). apply in_or_app. now right. }
    apply (Permutation_in i Hperm), in_seq in Hs. lia.
Qed.

(** X11: for [n] feature names, [n] importances and [sorted] a
    rearrangement of their positions, the ranking loop runs to its end
    exactly when [n] is 0 or at least 21; in every case it prints [n - 11]
    lines, at most 10: with 1 to 20 features it raises IndexError, after
    printing nothing when there are 11 or fewer. *)
Theorem feature_ranking_ends
        {V : Type} (sorted : list nat) (names : list label) (imps : list V)
        (n : nat) :
  List.length names = n ->
  List.length imps = n ->
  Permutation sorted (seq 0 n) ->
  (snd (feature_ranking sorted names imps) = finished <-> n = 0 \/ 21 <= n) /\
  List.length (fst (feature_ranking sorted names imps)) = Nat.min 10 (n - 11).
Proof.
  intros Hn Hi Hperm. destruct (sorted_positions sorted n Hperm) as [Hlen Hvalid].
  unfold feature_ranking, slice_up_to. rewrite length_firstn, Hn.
  destruct (ranking_loop_seq names imps (slice_down_to 10 sorted) n
              Hn Hi Hvalid (Nat.min 10 n) 0) as [Hcount Hend].
  rewrite Hlen in Hcount, Hend. split.
  - rewrite Hend. lia.
  - rewrite Hcount. lia.
Qed.

Lemma feature_ranking_ends_df1 :
  (snd (feature_ranking (seq 0 7) features_df1 [5; 1; 1; 0; 2; 0; 3])
   = finished <-> 7 = 0 \/ 21 <= 7) /\
  List.length (fst (feature_ranking (seq 0 7) features_df1
                                    [5; 1; 1; 0; 2; 0; 3]))
  = Nat.min 10 (7 - 11).
Proof.
  exact (feature_ranking_ends (seq 0 7) features_df1 [5; 1; 1; 0; 2; 0; 3] 7
           eq_refl eq_refl (Permutation_refl _)).
Defined.

Lemma feature_ranking_line_at
      {V : Type} (sorted : list nat) (names : list label) (imps : list V)
      (n : nat) :
  List.length names = n ->
  List.length imps = n ->
  Permutation sorted (seq 0 n) ->
  21 <= n ->
  List.length (fst (feature_ranking sorted names imps)) = 10 /\
  (forall f, f < 10 ->
     exists i nm v,
       nth_error sorted (n - 1 - f) = Some i /\
       nth_error names i = Some nm /\
       nth_error imps i = Some v /\
       nth_error (fst (feature_ranking sorted names imps)) f
       = Some (f + 1, nm, v)).
Proof.
  intros Hn Hi Hperm Hbig.
  destruct (sorted_positions sorted n Hperm) as [Hlen Hvalid].
  pose proof (ranking_loop_seq names imps (slice_down_to 10 sorted) n
                Hn Hi Hvalid (Nat.min 10 n) 0) as [Hcount Hend].
  rewrite Hlen in Hcount, Hend.
  unfold feature_ranking, slice_up_to. rewrite length_firstn, Hn.
  split; [rewrite Hcount; lia |].
  intros f Hf.
  destruct (ranking_loop_line names imps (slice_down_to 10 sorted)
              (Nat.min 10 n) 0 f ltac:(lia) (proj2 Hend ltac:(lia)))
    as (i & nm & v & H1 & H2 & H3 & H4).
  exists i, nm, v. simpl in H1, H4. repeat split; auto.
  unfold slice_down_to in H1. rewrite nth_error_rev, length_skipn in H1.
  rewrite (Permutation_length Hperm), length_seq in H1.
  destruct (Nat.ltb_spec f (n - 11)) as [_ | Hge]; [| lia].
  rewrite nth_error_skipn in H1.
  replace (n - 1 - f) with (11 + (n - 11 - S f)) by lia. exact H1.
Qed.

(** X12: with at least 21 features the loop prints exactly 10 lines and
    line [f] (counting from 0) shows rank [f + 1] with the name and the
    importance of the feature whose position stands at place [n - 1 - f]
    of [sorted]: the last places of [np.argsort(importances)], last
    first. *)
Theorem feature_ranking_lines
        {V : Type} (sorted : list nat) (names : list label) (imps : list V)
        (n : nat) :
  List.length names = n ->
  List.length imps = n ->
  Permutation sorted (seq 0 n) ->
  21 <= n ->
  List.length (fst (feature_ranking sorted names imps)) = 10 /\
  (forall f, f < 10 ->
     exists i nm v,
       nth_error sorted (n - 1 - f) = Some i /\
       nth_error names i = Some nm /\
       nth_error imps i = Some v /\
       nth_error (fst (feature_ranking sorted names imps)) f
       = Some (f + 1, nm, v)).
Proof. exact (feature_ranking_line_at sorted names imps n). Qed.

Lemma feature_ranking_lines_21 :
  List.length (fst (feature_ranking (seq 0 21) (repeat "x" 21) (seq 100 21)))
  = 10 /\
  (forall f, f < 10 ->
     exists i nm v,
       nth_error (seq 0 21) (21 - 1 - f) = Some i /\
       nth_error (repeat "x" 21) i = Some nm /\
       nth_error (seq 100 21) i = Some v /\
       nth_error (fst (feature_ranking (seq 0 21) (repeat "x" 21)
                                       (seq 100 21))) f
       = Some (f + 1, nm, v)).
Proof.
  apply (feature_ranking_lines (seq 0 21) (repeat "x" 21) (seq 100 21) 21).
  - reflexivity.
  - reflexivity.
  - apply Permutation_refl.
  - lia.
Defined.

(** X13: when [sorted] lists the positions by ascending importance, as
    [np.argsort] does, and there are at least 21 features, the lines come
    in descending importance, and no feature among the first [n - 10]
    places of [sorted] is more important than a feature printed: the loop
    prints ten most important features, most important first. *)
Theorem feature_ranking_descending
        {V : Type} (le : V -> V -> Prop)
        (sorted : list nat) (names : list label) (imps : list V) (n : nat) :
  List.length names = n ->
  List.length imps = n ->
  Permutation sorted (seq 0 n) ->
  21 <= n ->
  (forall a b i j vi vj,
      a <= b ->
      nth_error sorted a = Some i -> nth_error sorted b = Some j ->
      nth_error imps i = Some vi -> nth_error imps j = Some vj ->
      le vi vj) ->
  (forall f g lf lg,
      f <= g ->
      nth_error (fst (feature_ranking sorted names imps)) f = Some lf ->
      nth_error (fst (feature_ranking sorted names imps)) g = Some lg ->
      le (snd lg) (snd lf)) /\
  (forall a i vi f lf,
      a < n - 10 ->
      nth_error sorted a = Some i -> nth_error imps i = Some vi ->
      nth_error (fst (feature_ranking sorted names imps)) f = Some lf ->
      le vi (snd lf)).
Proof.
  intros Hn Hi Hperm Hbig Hasc.
  destruct (feature_ranking_line_at sorted names imps n Hn Hi Hperm Hbig)
    as [Hlen Hline].
  assert (Hat : forall f lf,
             nth_error (fst (feature_ranking sorted names imps)) f = Some lf ->
             f < 10 /\
             exists i, nth_error sorted (n - 1 - f) = Some i /\
                       nth_error imps i = Some (snd lf)).
  { intros f lf Hf.
    assert (f < 10) as Hf10.
    { rewrite <- Hlen. apply nth_error_Some. congruence. }
    split; [exact Hf10 |].
    destruct (Hline f Hf10) as (i & nm & v & H1 & _ & H3 & H4).
    rewrite Hf in H4. inversion H4; subst lf. exists i. auto. }
  split.
  - intros f g lf lg Hfg Hf Hg.
    destruct (Hat f lf Hf) as (Hf10 & i & Hi1 & Hi2).
    destruct (Hat g lg Hg) as (Hg10 & j & Hj1 & Hj2).
    apply (Hasc (n - 1 - g) (n - 1 - f) j i); auto. lia.
  - intros a i vi f lf Ha Hs Hv Hf.
    destruct (Hat f lf Hf) as (Hf10 & j & Hj1 & Hj2).
    apply (Hasc a (n - 1 - f) i j); auto. lia.
Qed.

Lemma nth_error_seq_Some (start len k x : nat) :
  nth_error (seq start len) k = Some x -> x = start + k.
Proof.
  rewrite nth_error_seq. destruct (Nat.ltb k len); intros H; inversion H.
  reflexivity.
Qed.

Lemma feature_ranking_descending_21 :
  (forall f g lf lg,
      f <= g ->
      nth_error (fst (feature_ranking (seq 0 21) (repeat "x" 21)
                                      (seq 100 21))) f = Some lf ->
      nth_error (fst (feature_ranking (seq 0 21) (repeat "x" 21)
                                      (seq 100 21))) g = Some lg ->
      snd lg <= snd lf) /\
  (forall a i vi f lf,
      a < 21 - 10 ->
      nth_error (seq 0 21) a = Some i ->
      nth_error (seq 100 21) i = Some vi ->
      nth_error (fst (feature_ranking (seq 0 21) (repeat "x" 21)
                                      (seq 100 21))) f = Some lf ->
      vi <= snd lf).
Proof.
  apply (feature_ranking_descending Nat.le (seq 0 21) (repeat "x" 21)
           (seq 100 21) 21).
  - reflexivity.
  - reflexivity.
  - apply Permutation_refl.
  - lia.
  - intros a b i j vi vj Hab Ha Hb Hvi Hvj.
    apply nth_error_seq_Some in Ha, Hb. subst i j.
    apply nth_error_seq_Some in Hvi, Hvj. lia.
Defined.
